(** * NeedsTeam: the route-to-team controller of the web client

    A shallow embedding of [components/needs_team/needs_team.tsx].

    The component is a React class whose methods mutate the instance
    ([this.state], [this.blurTime]), three module- or window-level
    variables ([wakeUpInterval], [lastTime], [window.isActive]) and the
    browser's timer and listener tables, and which call out to redux
    actions, the history object and local storage.  Mutable data lives
    in a [World] record that is threaded through a small monad; every
    call to a collaborator is recorded, in program order, in the list of
    effects that a computation has issued.

    Times are the integer milliseconds of [Date.now()]; they stay far
    below 2^53, where JavaScript numbers are exact, so they are [Z]. *)

From Stdlib Require Import ZArith List Bool Lia.
From stdpp Require Import base decidable option strings gmap.

Import ListNotations.
Local Open Scope string_scope.
Local Open Scope Z_scope.
Local Open Scope list_scope.

(** ** Data model *)

(** [Team] from [@mattermost/types/teams]: the fields the component reads. *)
Module Team.
Record t : Type := mk {
  id : string;
  name : string;
  delete_at : Z;
  group_constrained : bool;
}.
End Team.

(** [UserProfile] from [@mattermost/types/users]. *)
Module UserProfile.
Record t : Type := mk {
  id : string;
  roles : string;
}.
End UserProfile.

(** The component's [Props], without the action table (actions are
    effects below) and the plugin list (used by [render] only). *)
Module Props.
Record t : Type := mk {
  license : option (gmap string string);
  currentUser : option UserProfile.t;
  currentChannelId : option string;
  currentTeamId : option string;
  mfaRequired : bool;
  match_params_team : string;
  previousTeamId : option string;
  teamsList : option (list Team.t);
  collapsedThreads : bool;
  selectedThreadId : option string;
  shouldShowAppBar : bool;
  isCustomGroupsEnabled : bool;
}.
End Props.

(** The component's [State], and the partial objects handed to
    [setState] or returned by [getDerivedStateFromProps], which React
    merges into the current state field by field. *)
Module State.
Record t : Type := mk {
  team : option Team.t;
  finishedFetchingChannels : bool;
  prevTeam : string;
  teamsList : option (list Team.t);
}.

Record patch : Type := mkPatch {
  set_team : option (option Team.t);
  set_finishedFetchingChannels : option bool;
  set_prevTeam : option string;
}.

Definition merge (s : t) (p : patch) : t :=
  {| team := match set_team p with Some v => v | None => team s end;
     finishedFetchingChannels :=
       match set_finishedFetchingChannels p with
       | Some v => v
       | None => finishedFetchingChannels s
       end;
     prevTeam := match set_prevTeam p with Some v => v | None => prevTeam s end;
     teamsList := teamsList s |}.
End State.

(** The three handlers the component hands to [window.addEventListener].
    The body of [onShortcutKeyDown] only moves the DOM focus and is not
    modelled. *)
Inductive Handler : Type :=
| HandleFocus
| HandleBlur
| OnShortcutKeyDown.

(** Calls to collaborators, one constructor per callee, with the
    arguments of the call. *)
Inductive Effect : Type :=
| HistoryPush (path : string)
| ConsoleLog (msg : string)
| Reconnect (forced : bool)
| SetTeamIdJoinedOnLoad (teamId : option string)
| StartPeriodicStatusUpdates
| StopPeriodicStatusUpdates
| INoBounceEnable
| INoBounceDisable
| EmitCloseRightHandSide
| GetMyTeamUnreads (collapsedThreads : bool)
| SelectTeam (team : Team.t)
| SetPreviousTeamId (teamId : string)
| FetchMyChannelsAndMembersREST (teamId : string)
| FetchAllMyTeamsChannelsAndChannelMembersREST
| LoadStatusesForChannelAndSidebar
| GetGroupsByUserIdPaginated (userId : string) (filterAllowReference : bool)
                             (page perPage : Z) (includeMemberCount : bool)
| GetAllGroupsAssociatedToChannelsInTeam (teamId : string) (filterAllowReference : bool)
| GetAllGroupsAssociatedToTeam (teamId : string) (filterAllowReference : bool)
| GetGroups (filterAllowReference : bool) (page perPage : Z)
| ViewChannel (channelId : string)
| MarkChannelAsReadOnFocus (channelId : string)
| GetTeamByName (teamName : string)
| AddUserToTeam (teamId : string) (userId : option string).

(** Everything the component can mutate. *)
Record World : Type := mkWorld {
  wakeUpInterval : option nat;       (* module variable: handle of the wake-up timer *)
  lastTime : Z;                      (* module variable *)
  timers : list (nat * Z);           (* the browser's live intervals: handle, period *)
  nextHandle : nat;                  (* the handle the next setInterval returns *)
  isActive : bool;                   (* window.isActive *)
  listeners : list (string * Handler);  (* the window's event listeners *)
  blurTime : Z;                      (* this.blurTime *)
  state : option State.t;            (* this.state; None until the constructor assigns it *)
}.

(** ** The monad: state, issued effects and exceptions *)

Inductive Completion (A : Type) : Type :=
| Normal (a : A)
| Throw (msg : string).
Arguments Normal {A} a.
Arguments Throw {A} msg.

Record Outcome (A : Type) : Type := mkOutcome {
  completion : Completion A;
  world : World;
  issued : list Effect;
}.
Arguments mkOutcome {A}.
Arguments completion {A}.
Arguments world {A}.
Arguments issued {A}.

Definition M (A : Type) : Type := World -> Outcome A.

Definition ret {A} (a : A) : M A :=
  fun w => mkOutcome (Normal a) w [].

Definition bind {A B} (m : M A) (k : A -> M B) : M B :=
  fun w =>
    match m w with
    | mkOutcome (Normal a) w1 l1 =>
        match k a w1 with
        | mkOutcome c w2 l2 => mkOutcome c w2 (l1 ++ l2)
        end
    | mkOutcome (Throw msg) w1 l1 => mkOutcome (Throw msg) w1 l1
    end.

Declare Scope js_scope.
Delimit Scope js_scope with js.
Notation "x <- m ;; k" := (bind m (fun x => k))
  (at level 100, m at next level, k at level 200, right associativity) : js_scope.
Notation "m ;; k" := (bind m (fun _ => k))
  (at level 100, k at level 200, right associativity) : js_scope.

Definition emit (e : Effect) : M unit :=
  fun w => mkOutcome (Normal tt) w [e].

Definition throw {A} (msg : string) : M A :=
  fun w => mkOutcome (Throw msg) w [].

Definition get : M World :=
  fun w => mkOutcome (Normal w) w [].

Definition modify (f : World -> World) : M unit :=
  fun w => mkOutcome (Normal tt) (f w) [].

(** [if (c) { m }] *)
Definition when (c : bool) (m : M unit) : M unit :=
  if c then m else ret tt.

(** Field updates of the world. *)
Definition with_wakeUpInterval (h : option nat) (w : World) : World :=
  mkWorld h (lastTime w) (timers w) (nextHandle w) (isActive w) (listeners w)
          (blurTime w) (state w).
Definition with_lastTime (t : Z) (w : World) : World :=
  mkWorld (wakeUpInterval w) t (timers w) (nextHandle w) (isActive w) (listeners w)
          (blurTime w) (state w).
Definition with_timers (ts : list (nat * Z)) (n : nat) (w : World) : World :=
  mkWorld (wakeUpInterval w) (lastTime w) ts n (isActive w) (listeners w)
          (blurTime w) (state w).
Definition with_isActive (b : bool) (w : World) : World :=
  mkWorld (wakeUpInterval w) (lastTime w) (timers w) (nextHandle w) b (listeners w)
          (blurTime w) (state w).
Definition with_listeners (ls : list (string * Handler)) (w : World) : World :=
  mkWorld (wakeUpInterval w) (lastTime w) (timers w) (nextHandle w) (isActive w) ls
          (blurTime w) (state w).
Definition with_blurTime (t : Z) (w : World) : World :=
  mkWorld (wakeUpInterval w) (lastTime w) (timers w) (nextHandle w) (isActive w)
          (listeners w) t (state w).
Definition with_state (s : option State.t) (w : World) : World :=
  mkWorld (wakeUpInterval w) (lastTime w) (timers w) (nextHandle w) (isActive w)
          (listeners w) (blurTime w) s.

(** ** Module constants *)

Definition WAKEUP_CHECK_INTERVAL : Z := 30000.
Definition WAKEUP_THRESHOLD : Z := 60000.
Definition UNREAD_CHECK_TIME_MILLISECONDS : Z := 10000.

(** The error object of a failed request; any such object is truthy. *)
Inductive ServerError : Type :=
| mkServerError (message : string).

(** What [render] hands to the view layer: an empty [div] while there is
    no team, the route switch otherwise (its default route shows the
    channel view with [fetchingChannels]). *)
Inductive View : Type :=
| EmptyDiv
| Routes (shouldShowAppBar fetchingChannels : bool).

Definition is_Some_bool {A} (o : option A) : bool :=
  match o with Some _ => true | None => false end.

(** The value of an optional string when it is truthy: present and not
    the empty string. *)
Definition truthy (s : option string) : option string :=
  match s with
  | Some v => if bool_decide (v = "") then None else Some v
  | None => None
  end.

(** [teamsList ? teamsList.find((teamObj) => teamObj.name === slug) : null],
    with [undefined] and [null] both read as [None]. *)
Definition findTeam (teamsList : option (list Team.t)) (slug : string) : option Team.t :=
  match teamsList with
  | Some l => List.find (fun teamObj => bool_decide (Team.name teamObj = slug)) l
  | None => None
  end.

(** Module evaluation: [let wakeUpInterval: number; let lastTime = Date.now();]
    with no instance, no timer and no listener yet. *)
Definition module_init (now : Z) : World :=
  {| wakeUpInterval := None; lastTime := now; timers := []; nextHandle := 1%nat;
     isActive := false; listeners := []; blurTime := 0; state := None |}.

(** ** Browser and React primitives *)

(** [clearInterval(h)]: forgets the timer with that handle, if any. *)
Definition clearInterval (h : option nat) : M unit :=
  modify (fun w =>
    match h with
    | Some n => with_timers (List.filter (fun t => negb (Nat.eqb (fst t) n)) (timers w))
                            (nextHandle w) w
    | None => w
    end).

(** [window.setInterval(callback, period)]: a fresh handle. *)
Definition setInterval (period : Z) : M nat :=
  (w <- get ;;
   modify (with_timers ((nextHandle w, period) :: timers w) (S (nextHandle w))) ;;
   ret (nextHandle w))%js.

Definition addEventListener (ev : string) (h : Handler) : M unit :=
  modify (fun w => with_listeners (listeners w ++ [(ev, h)]) w).

Definition handler_eqb (a b : Handler) : bool :=
  match a, b with
  | HandleFocus, HandleFocus | HandleBlur, HandleBlur
  | OnShortcutKeyDown, OnShortcutKeyDown => true
  | _, _ => false
  end.

Definition removeEventListener (ev : string) (h : Handler) : M unit :=
  modify (fun w =>
    with_listeners
      (List.filter (fun l => negb (bool_decide (fst l = ev) && handler_eqb (snd l) h))
                   (listeners w)) w).

(** [this.setState(partial)]: merged into the state of a mounted
    instance; on an instance whose state was never assigned (inside the
    constructor) React ignores the call. *)
Definition setState (p : State.patch) : M unit :=
  modify (fun w => with_state (option_map (fun s => State.merge s p) (state w)) w).

Section Controller.

(** [Constants.RESERVED_TEAM_NAMES], from [utils/constants]. *)
Variable RESERVED_TEAM_NAMES : list string.
(** [isGuest], from [mattermost-redux/utils/user_utils], on a roles string. *)
Variable isGuest : string -> bool.
(** [UserAgent.isIosSafari()]. *)
Variable isIosSafari : bool.
(** The server behind the two awaited actions of [joinTeam]: the [data]
    of the answer to [getTeamByName] and the [error] of the answer to
    [addUserToTeam].  An [await] is run through with that answer. *)
Variable getTeamByName : string -> option Team.t.
Variable addUserToTeam : string -> option string -> option ServerError.

(** The interval callback installed by the constructor. *)
Definition wakeUpTick (currentTime : Z) : M unit :=
  (w <- get ;;
   when (currentTime >? lastTime w + WAKEUP_THRESHOLD)
     (emit (ConsoleLog "computer woke up - fetching latest") ;;
      emit (Reconnect false)) ;;
   modify (with_lastTime currentTime))%js.

(** The license block at the end of [initTeam]. *)
Definition fetchGroups (props : Props.t) (team : Team.t) : M unit :=
  match Props.license props with
  | Some license =>
      let LDAPGroups := bool_decide (license !! "LDAPGroups" = Some "true") in
      when (bool_decide (license !! "IsLicensed" = Some "true") &&
            (LDAPGroups || Props.isCustomGroupsEnabled props))
        (match Props.currentUser props with
         | Some currentUser =>
             emit (GetGroupsByUserIdPaginated (UserProfile.id currentUser) false 0 60 true)
         | None => ret tt
         end ;;
         when LDAPGroups
           (emit (GetAllGroupsAssociatedToChannelsInTeam (Team.id team) true)) ;;
         if Team.group_constrained team && LDAPGroups
         then emit (GetAllGroupsAssociatedToTeam (Team.id team) true)
         else emit (GetGroups false 0 60))%js
  | None => ret tt
  end.

Definition initTeam (props : Props.t) (team : Team.t) : M Team.t :=
  (when (negb (bool_decide (Some (Team.id team) = Props.previousTeamId props)))
     (emit EmitCloseRightHandSide) ;;
   emit (GetMyTeamUnreads (Props.collapsedThreads props)) ;;
   emit (SelectTeam team) ;;
   emit (SetPreviousTeamId (Team.id team)) ;;
   match Props.currentUser props with
   | Some currentUser =>
       when (isGuest (UserProfile.roles currentUser))
         (setState (State.mkPatch None (Some false) None))
   | None => ret tt
   end ;;
   emit (FetchMyChannelsAndMembersREST (Team.id team)) ;;
   emit LoadStatusesForChannelAndSidebar ;;
   fetchGroups props team ;;
   ret team)%js.

(** The [then] callback of the channel fetch issued by [initTeam], run
    when that fetch completes. *)
Definition fetchMyChannelsAndMembersREST_then : M unit :=
  setState (State.mkPatch None (Some true) None).

Definition fetchAllTeams : M unit :=
  emit FetchAllMyTeamsChannelsAndChannelMembersREST.

Definition updateCurrentTeam (props : Props.t) : M (option Team.t) :=
  match findTeam (Props.teamsList props) (Props.match_params_team props) with
  | Some team => (_ <- initTeam props team ;; ret (Some team))%js
  | None => ret None
  end.

(** [joinTeam(props, firstLoad)]; at both call sites [props] is
    [this.props]. *)
Definition joinTeam (props : Props.t) (firstLoad : bool) : M unit :=
  let slug := Props.match_params_team props in
  if bool_decide (slug ∈ RESERVED_TEAM_NAMES) then ret tt
  else
    (emit (GetTeamByName slug) ;;
     match getTeamByName slug with
     | Some team =>
         if bool_decide (Team.delete_at team = 0) then
           let userId := option_map UserProfile.id (Props.currentUser props) in
           (emit (AddUserToTeam (Team.id team) userId) ;;
            match addUserToTeam (Team.id team) userId with
            | Some _ => emit (HistoryPush "/error?type=team_not_found")
            | None =>
                when firstLoad (emit (SetTeamIdJoinedOnLoad (Some (Team.id team)))) ;;
                setState (State.mkPatch (Some (Some team)) None None) ;;
                _ <- initTeam props team ;;
                ret tt
            end)
         else emit (HistoryPush "/error?type=team_not_found")
     | None => emit (HistoryPush "/error?type=team_not_found")
     end)%js.

(** [new NeedsTeam(props)] at time [now].  The instance is new, so its
    state starts unassigned; the early return under [mfaRequired] leaves
    it so.  [joinTeam] is called without [await]: its continuation is
    run here, when the constructor has assigned the state. *)
Definition constructor (props : Props.t) (now : Z) : M unit :=
  (modify (with_state None) ;;
   modify (with_blurTime now) ;;
   if Props.mfaRequired props then emit (HistoryPush "/mfa/setup")
   else
     w <- get ;;
     clearInterval (wakeUpInterval w) ;;
     h <- setInterval WAKEUP_CHECK_INTERVAL ;;
     modify (with_wakeUpInterval (Some h)) ;;
     team <- updateCurrentTeam props ;;
     modify (with_state (Some
       {| State.team := team;
          State.finishedFetchingChannels := false;
          State.prevTeam := Props.match_params_team props;
          State.teamsList := Props.teamsList props |})) ;;
     emit (SetTeamIdJoinedOnLoad None) ;;
     match team with
     | None => joinTeam props true
     | Some _ => ret tt
     end)%js.

(** [static getDerivedStateFromProps(nextProps, state)].  React passes
    [null] for the state of an instance whose constructor assigned
    none, and reading [state.prevTeam] then raises a TypeError. *)
Definition getDerivedStateFromProps (nextProps : Props.t) (state : option State.t)
  : Completion State.patch :=
  match state with
  | None => Throw "TypeError: Cannot read properties of null (reading 'prevTeam')"
  | Some state =>
      if negb (bool_decide (State.prevTeam state = Props.match_params_team nextProps))
      then
        let team := findTeam (Props.teamsList nextProps) (Props.match_params_team nextProps) in
        Normal (State.mkPatch (Some team) None (Some (Props.match_params_team nextProps)))
      else Normal (State.mkPatch None None (Some (Props.match_params_team nextProps)))
  end.

Definition componentDidMount (props : Props.t) : M unit :=
  (emit StartPeriodicStatusUpdates ;;
   fetchAllTeams ;;
   modify (with_isActive true) ;;
   when isIosSafari (emit INoBounceEnable) ;;
   addEventListener "focus" HandleFocus ;;
   addEventListener "blur" HandleBlur ;;
   addEventListener "keydown" OnShortcutKeyDown)%js.

(** [componentDidUpdate(prevProps)] with [this.props = props].  The two
    tests [if (this.state.team)] and [if (!this.state.team)] read the
    same state, which [initTeam] does not change in between. *)
Definition componentDidUpdate (prevProps props : Props.t) : M unit :=
  if negb (bool_decide (Props.match_params_team props = Props.match_params_team prevProps))
  then
    (w <- get ;;
     match state w with
     | None => throw "TypeError: Cannot read properties of null (reading 'team')"
     | Some s =>
         match State.team s with
         | Some team => _ <- initTeam props team ;; ret tt
         | None => joinTeam props false
         end
     end)%js
  else ret tt.

Definition componentWillUnmount : M unit :=
  (modify (with_isActive false) ;;
   emit StopPeriodicStatusUpdates ;;
   when isIosSafari (emit INoBounceDisable) ;;
   w <- get ;;
   clearInterval (wakeUpInterval w) ;;
   removeEventListener "focus" HandleFocus ;;
   removeEventListener "blur" HandleBlur ;;
   removeEventListener "keydown" OnShortcutKeyDown)%js.

Definition handleBlur (props : Props.t) (now : Z) : M unit :=
  (modify (with_isActive false) ;;
   modify (with_blurTime now) ;;
   match Props.currentUser props with
   | Some _ => emit (ViewChannel "")
   | None => ret tt
   end)%js.

(** The last test is [Date.now() - this.blurTime > ... &&
    this.props.currentTeamId]; the team id is matched first here because
    the call needs it. *)
Definition handleFocus (props : Props.t) (now : Z) : M unit :=
  (match truthy (Props.selectedThreadId props) with
   | Some _ => modify (with_isActive true)
   | None => ret tt
   end ;;
   match truthy (Props.currentChannelId props) with
   | Some currentChannelId =>
       emit (MarkChannelAsReadOnFocus currentChannelId) ;;
       modify (with_isActive true)
   | None => ret tt
   end ;;
   w <- get ;;
   match truthy (Props.currentTeamId props) with
   | Some currentTeamId =>
       when (now - blurTime w >? UNREAD_CHECK_TIME_MILLISECONDS)
         (emit (FetchMyChannelsAndMembersREST currentTeamId))
   | None => ret tt
   end)%js.

Definition render (props : Props.t) : M View :=
  (w <- get ;;
   match state w with
   | None => throw "TypeError: Cannot read properties of null (reading 'team')"
   | Some s =>
       match State.team s with
       | None => ret EmptyDiv
       | Some _ =>
           ret (Routes (Props.shouldShowAppBar props)
                       (negb (State.finishedFetchingChannels s)))
       end
   end)%js.

(** ** React's life cycle around the methods *)

(** [getDerivedStateFromProps] is called before every render, and its
    result is merged into the state; an exception it raises aborts the
    render. *)
Definition applyDerivedStateFromProps (nextProps : Props.t) : M unit :=
  (w <- get ;;
   match getDerivedStateFromProps nextProps (state w) with
   | Normal p => setState p
   | Throw msg => throw msg
   end)%js.

(** Mounting: constructor, derived state, render, then
    [componentDidMount] once the render is committed. *)
Definition mount (props : Props.t) (now : Z) : M unit :=
  (constructor props now ;;
   applyDerivedStateFromProps props ;;
   _ <- render props ;;
   componentDidMount props)%js.

(** Updating on new props: derived state, render, then
    [componentDidUpdate] with the props of the render before. *)
Definition update (prevProps props : Props.t) : M unit :=
  (applyDerivedStateFromProps props ;;
   _ <- render props ;;
   componentDidUpdate prevProps props)%js.

End Controller.

(** ** Observations on effects and props *)

Definition is_team_groups_fetch (e : Effect) : bool :=
  match e with GetAllGroupsAssociatedToTeam _ _ => true | _ => false end.

Definition is_general_groups_fetch (e : Effect) : bool :=
  match e with GetGroups _ _ _ => true | _ => false end.

Definition is_user_groups_fetch (e : Effect) : bool :=
  match e with GetGroupsByUserIdPaginated _ _ _ _ _ => true | _ => false end.

Definition is_channel_groups_fetch (e : Effect) : bool :=
  match e with GetAllGroupsAssociatedToChannelsInTeam _ _ => true | _ => false end.

(** Any of the four group actions. *)
Definition is_group_fetch (e : Effect) : bool :=
  is_user_groups_fetch e || is_channel_groups_fetch e ||
  is_team_groups_fetch e || is_general_groups_fetch e.

Definition is_close_rhs (e : Effect) : bool :=
  match e with EmitCloseRightHandSide => true | _ => false end.

Definition is_history_push (e : Effect) : bool :=
  match e with HistoryPush _ => true | _ => false end.

Definition is_reconnect (e : Effect) : bool :=
  match e with Reconnect _ => true | _ => false end.

Definition is_channels_fetch (e : Effect) : bool :=
  match e with FetchMyChannelsAndMembersREST _ => true | _ => false end.

Definition is_mark_read (e : Effect) : bool :=
  match e with MarkChannelAsReadOnFocus _ => true | _ => false end.

(** The calls [initTeam] makes for any team: with none of them in a
    trace, no team was initialised. *)
Definition is_init_call (e : Effect) : bool :=
  match e with
  | GetMyTeamUnreads _ | SelectTeam _ | SetPreviousTeamId _
  | FetchMyChannelsAndMembersREST _ | LoadStatusesForChannelAndSidebar => true
  | _ => false
  end.

(** The route of the generic team-not-found page. *)
Definition team_not_found_route : string := "/error?type=team_not_found".

(** The license flags as [initTeam] reads them. *)
Definition licensed (props : Props.t) : bool :=
  match Props.license props with
  | Some license => bool_decide (license !! "IsLicensed" = Some "true")
  | None => false
  end.

Definition ldapGroupsEnabled (props : Props.t) : bool :=
  match Props.license props with
  | Some license => bool_decide (license !! "LDAPGroups" = Some "true")
  | None => false
  end.

(** The gate of the group block. *)
Definition groupsGate (props : Props.t) : bool :=
  licensed props && (ldapGroupsEnabled props || Props.isCustomGroupsEnabled props).

(** The specification's selection function, on its four flags. *)
Inductive GroupSelection : Type :=
| NoGroupFetch
| TeamGroups
| GeneralGroups.

Definition groupFetchSelection (licensed ldapGroupsEnabled customGroupsEnabled
                                groupConstrained : bool) : GroupSelection :=
  if licensed && (ldapGroupsEnabled || customGroupsEnabled)
  then if groupConstrained && ldapGroupsEnabled then TeamGroups else GeneralGroups
  else NoGroupFetch.

(** Whether the current user is a guest, as [initTeam] asks it. *)
Definition currentUserIsGuest (isGuest : string -> bool) (props : Props.t) : bool :=
  match Props.currentUser props with
  | Some currentUser => isGuest (UserProfile.roles currentUser)
  | None => false
  end.

(** The world [initTeam] leaves: only a guest's
    [finishedFetchingChannels] is written. *)
Definition initTeam_world (isGuest : string -> bool) (props : Props.t) (w : World) : World :=
  if currentUserIsGuest isGuest props
  then with_state
         (option_map (fun s => State.merge s (State.mkPatch None (Some false) None))
                     (state w)) w
  else w.

(** The calls [initTeam] issues; they do not depend on the world
    ([initTeam_run] below). *)
Definition initTeam_calls (isGuest : string -> bool) (props : Props.t) (team : Team.t)
  : list Effect :=
  issued (initTeam isGuest props team (module_init 0)).

(** The specification's [join(slug)]: not attempted on a reserved name;
    [TeamNotFound] when the team is absent or has [delete_at != 0];
    [MembershipRejected] when adding the user is answered by an error. *)
Inductive JoinError : Type :=
| TeamNotFound
| MembershipRejected.

Inductive JoinResult : Type :=
| NotAttempted
| Joined (team : Team.t)
| Failed (e : JoinError).

Section Join.
Variable RESERVED_TEAM_NAMES : list string.
Variable getTeamByName : string -> option Team.t.
Variable addUserToTeam : string -> option string -> option ServerError.

Definition join (props : Props.t) : JoinResult :=
  let slug := Props.match_params_team props in
  if bool_decide (slug ∈ RESERVED_TEAM_NAMES) then NotAttempted
  else
    match getTeamByName slug with
    | None => Failed TeamNotFound
    | Some team =>
        if bool_decide (Team.delete_at team = 0) then
          match addUserToTeam (Team.id team)
                              (option_map UserProfile.id (Props.currentUser props)) with
          | Some _ => Failed MembershipRejected
          | None => Joined team
          end
        else Failed TeamNotFound
    end.

(** The failures of a join, in the words of the specification. *)
Inductive JoinFailure (props : Props.t) : JoinError -> Prop :=
| team_absent :
    getTeamByName (Props.match_params_team props) = None ->
    JoinFailure props TeamNotFound
| team_deleted team :
    getTeamByName (Props.match_params_team props) = Some team ->
    Team.delete_at team <> 0 ->
    JoinFailure props TeamNotFound
| membership_rejected team err :
    getTeamByName (Props.match_params_team props) = Some team ->
    Team.delete_at team = 0 ->
    addUserToTeam (Team.id team) (option_map UserProfile.id (Props.currentUser props))
      = Some err ->
    JoinFailure props MembershipRejected.

(** The team a route resolves to: the one found in the teams list,
    else the one joined. *)
Definition resolution (props : Props.t) : option Team.t :=
  match findTeam (Props.teamsList props) (Props.match_params_team props) with
  | Some team => Some team
  | None => match join props with Joined team => Some team | _ => None end
  end.

(** A route that is a reserved name and names no team of the list. *)
Definition reservedUnknown (props : Props.t) : bool :=
  bool_decide (Props.match_params_team props ∈ RESERVED_TEAM_NAMES) &&
  negb (is_Some_bool (findTeam (Props.teamsList props) (Props.match_params_team props))).
End Join.

(** What the view layer is shown of an outcome: the current team and
    whether its channels are ready. *)
Definition currentTeam (w : World) : option Team.t :=
  match state w with
  | Some s => State.team s
  | None => None
  end.

Definition channelsReady (w : World) : bool :=
  match state w with
  | Some s => State.finishedFetchingChannels s
  | None => false
  end.

(** Whether a navigation to the team-not-found route was issued. *)
Definition is_error_navigation (e : Effect) : bool :=
  match e with
  | HistoryPush path => bool_decide (path = team_not_found_route)
  | _ => false
  end.

Definition errorNavigation (calls : list Effect) : bool :=
  existsb is_error_navigation calls.

(** The two ways a completed resolution is meant to end, and the third
    way it ends on a reserved name. *)
Definition resolved_xor_error {A} (o : Outcome A) : Prop :=
  (is_Some (currentTeam (world o)) /\ errorNavigation (issued o) = false) \/
  (currentTeam (world o) = None /\ errorNavigation (issued o) = true).

Definition silently_ignored {A} (o : Outcome A) : Prop :=
  currentTeam (world o) = None /\ errorNavigation (issued o) = false.

(** ** A concrete deployment, for the examples

    One reserved name, the role test on [system_guest], a server that
    knows the team [gamma] and an archived team [omega], a member and a
    guest, and a teams list with [alpha] and [beta]. *)

Definition reserved_names : list string := ["admin_console"].

Definition guest_by_role (roles : string) : bool :=
  bool_decide ("system_guest" ∈ String.words roles).

Definition alpha : Team.t := Team.mk "id-alpha" "alpha" 0 false.
Definition beta : Team.t := Team.mk "id-beta" "beta" 0 true.
Definition gamma : Team.t := Team.mk "id-gamma" "gamma" 0 false.
Definition omega : Team.t := Team.mk "id-omega" "omega" 1600000000000 false.

Definition server_teams (teamName : string) : option Team.t :=
  if bool_decide (teamName = "gamma") then Some gamma
  else if bool_decide (teamName = "omega") then Some omega
  else None.

Definition add_accepted (teamId : string) (userId : option string) : option ServerError :=
  None.

Definition add_rejected (teamId : string) (userId : option string) : option ServerError :=
  Some (mkServerError "api.team.add_user.error").

Definition member : UserProfile.t := UserProfile.mk "id-alice" "system_user".
Definition guest : UserProfile.t := UserProfile.mk "id-bob" "system_guest".

Definition ldap_license : gmap string string :=
  <["IsLicensed" := "true"]> (<["LDAPGroups" := "true"]> ∅).

(** Props on the route of [slug], for a user of the store (if any). *)
Definition props_for (user : option UserProfile.t) (mfa : bool) (slug : string) : Props.t :=
  {| Props.license := Some ldap_license;
     Props.currentUser := user;
     Props.currentChannelId := Some "id-town-square";
     Props.currentTeamId := Some "id-alpha";
     Props.mfaRequired := mfa;
     Props.match_params_team := slug;
     Props.previousTeamId := None;
     Props.teamsList := Some [alpha; beta];
     Props.collapsedThreads := false;
     Props.selectedThreadId := None;
     Props.shouldShowAppBar := false;
     Props.isCustomGroupsEnabled := false |}.

Definition props_at : string -> Props.t := props_for (Some member) false.
Definition props_guest_at : string -> Props.t := props_for (Some guest) false.
Definition props_without_user : string -> Props.t := props_for None false.
Definition props_mfa : string -> Props.t := props_for (Some member) true.

(** The module loaded at time 0, the member's controller mounted on
    [alpha] at time 100000, and the channels of [alpha] fetched. *)
Definition mounted_on_alpha : World :=
  world (mount reserved_names guest_by_role false server_teams add_accepted
               (props_at "alpha") 100000 (module_init 0)).

Definition ready_on_alpha : World :=
  world (fetchMyChannelsAndMembersREST_then mounted_on_alpha).

(** ** The component over time

    The entry points through which React, the browser and the network
    reach the component, and a run of the component over a sequence of
    them.  A run goes on from the world an entry point leaves, also
    when that entry point raised. *)

Inductive Event : Type :=
| Mounted (props : Props.t) (now : Z)
| Updated (prevProps props : Props.t)
| Unmounted
| Ticked (currentTime : Z)
| Focused (props : Props.t) (now : Z)
| Blurred (props : Props.t) (now : Z)
| ChannelsFetched.

Section Events.
Variable RESERVED_TEAM_NAMES : list string.
Variable isGuest : string -> bool.
Variable isIosSafari : bool.
Variable getTeamByName : string -> option Team.t.
Variable addUserToTeam : string -> option string -> option ServerError.

Definition step (e : Event) : M unit :=
  match e with
  | Mounted props now =>
      mount RESERVED_TEAM_NAMES isGuest isIosSafari getTeamByName addUserToTeam props now
  | Updated prevProps props =>
      update RESERVED_TEAM_NAMES isGuest getTeamByName addUserToTeam prevProps props
  | Unmounted => componentWillUnmount isIosSafari
  | Ticked currentTime => wakeUpTick currentTime
  | Focused props now => handleFocus props now
  | Blurred props now => handleBlur props now
  | ChannelsFetched => fetchMyChannelsAndMembersREST_then
  end.

Fixpoint run_events (events : list Event) (w : World) : World :=
  match events with
  | [] => w
  | e :: rest => run_events rest (world (step e w))
  end.
End Events.

(** At most one wake-up timer is live, and its handle is the one kept
    in [wakeUpInterval]. *)
Definition one_timer (w : World) : Prop :=
  timers w = [] \/
  exists h, wakeUpInterval w = Some h /\ timers w = [(h, WAKEUP_CHECK_INTERVAL)].

(** The three registrations of [componentDidMount]. *)
Definition own_listener (l : string * Handler) : bool :=
  (bool_decide (fst l = "focus") && handler_eqb (snd l) HandleFocus) ||
  (bool_decide (fst l = "blur") && handler_eqb (snd l) HandleBlur) ||
  (bool_decide (fst l = "keydown") && handler_eqb (snd l) OnShortcutKeyDown).

(** The interval callback fired at each of [times], in order. *)
Fixpoint ticks (times : list Z) : M unit :=
  match times with
  | [] => ret tt
  | currentTime :: rest => (wakeUpTick currentTime ;; ticks rest)%js
  end.

(** How many of [times] come more than the threshold after the tick
    before them, [last] being the time before the first. *)
Fixpoint late_ticks (last : Z) (times : list Z) : nat :=
  match times with
  | [] => 0%nat
  | currentTime :: rest =>
      ((if currentTime >? last + WAKEUP_THRESHOLD then 1 else 0) +
       late_ticks currentTime rest)%nat
  end.

Definition is_team_lookup (e : Effect) : bool :=
  match e with GetTeamByName _ => true | _ => false end.

Definition is_add_user (e : Effect) : bool :=
  match e with AddUserToTeam _ _ => true | _ => false end.

Definition is_joined_on_load_marker (e : Effect) : bool :=
  match e with SetTeamIdJoinedOnLoad _ => true | _ => false end.

(** ** The keyboard shortcut

    [onShortcutKeyDown] reads the document and focuses at most one
    element.  The document is the map from element ids to class names,
    and the handler gives the id of the element it focuses, if any. *)

Record KeyboardEvent : Type := mkKeyboardEvent {
  shiftKey : bool;
  ctrlKey : bool;
  metaKey : bool;
  key : string;
}.

(** [className.match(pattern)] for a pattern without special
    characters: whether the pattern occurs in the class name. *)
Fixpoint occurs_in (pattern text : string) : bool :=
  String.prefix pattern text ||
  match text with
  | EmptyString => false
  | String _ rest => occurs_in pattern rest
  end.

Definition expanded_sidebar_classes : string :=
  "sidebar--right sidebar--right--expanded move--left".

Section Shortcut.
(** [Utils.cmdOrCtrlPressed] and [Utils.isKeyPressed(e, Constants.KeyCodes.L)],
    from [utils/utils]. *)
Variable cmdOrCtrlPressed : KeyboardEvent -> bool.
Variable isKeyPressed_L : KeyboardEvent -> bool.

Definition onShortcutKeyDown (e : KeyboardEvent) (document : gmap string string)
  : option string :=
  if shiftKey e && cmdOrCtrlPressed e && isKeyPressed_L e then
    match document !! "sidebar-right" with
    | Some className =>
        if occurs_in expanded_sidebar_classes className then
          match document !! "reply_textbox" with
          | Some _ => Some "reply_textbox"
          | None => None
          end
        else
          match document !! "post_textbox" with
          | Some _ => Some "post_textbox"
          | None => None
          end
    | None => None
    end
  else None.
End Shortcut.

(** ** The monad's equations *)

Section MonadFacts.
Context {A B : Type}.
Implicit Types (m : M A) (k : A -> M B) (w : World).

Lemma completion_bind m k w :
  completion (bind m k w) =
  match completion (m w) with
  | Normal a => completion (k a (world (m w)))
  | Throw msg => Throw msg
  end.
Proof.
  unfold bind. destruct (m w) as [[a|msg] w1 l1]; [|reflexivity].
  simpl. destruct (k a w1); reflexivity.
Qed.

Lemma world_bind m k w :
  world (bind m k w) =
  match completion (m w) with
  | Normal a => world (k a (world (m w)))
  | Throw _ => world (m w)
  end.
Proof.
  unfold bind. destruct (m w) as [[a|msg] w1 l1]; [|reflexivity].
  simpl. destruct (k a w1); reflexivity.
Qed.

Lemma issued_bind m k w :
  issued (bind m k w) =
  issued (m w) ++
  match completion (m w) with
  | Normal a => issued (k a (world (m w)))
  | Throw _ => []
  end.
Proof.
  unfold bind. destruct (m w) as [[a|msg] w1 l1]; simpl.
  - destruct (k a w1); reflexivity.
  - symmetry. apply app_nil_r.
Qed.
End MonadFacts.

(** ** [initTeam] *)

(** Unfold the monad and read the fields of updated worlds and states. *)
Ltac run :=
  cbv beta iota zeta delta
    [bind ret emit throw get modify when setState clearInterval setInterval
     addEventListener removeEventListener completion world issued];
  cbn [andb orb negb app option_map is_Some_bool
       state wakeUpInterval lastTime timers nextHandle isActive listeners blurTime
       with_state with_wakeUpInterval with_lastTime with_timers with_isActive
       with_listeners with_blurTime
       State.merge State.team State.finishedFetchingChannels State.prevTeam
       State.teamsList State.set_team State.set_finishedFetchingChannels
       State.set_prevTeam].

(** One case analysis, on a test that has no test inside it. *)
Ltac branch :=
  match goal with
  | H : bool_decide ?P = _ |- context [bool_decide ?P] => rewrite H
  | H : state ?w = _ |- context [state ?w] => rewrite H
  | H : ?x = _ |- context [match ?x with _ => _ end] => rewrite H
  | |- context [bool_decide ?P] => destruct (bool_decide P) eqn:?
  | |- context [match ?x with _ => _ end] =>
      lazymatch x with
      | context [match _ with _ => _ end] => fail
      | _ => destruct x eqn:?
      end
  end.

(** All tests that can be read off the program text are decided before
    the binds are unfolded, the ones on the world after. *)
Ltac branches :=
  cbv beta delta [when];
  repeat (cbn [andb orb negb]; branch);
  run;
  repeat (branch; run).

Section InitTeam.
Variable isGuest : string -> bool.
Implicit Types (props : Props.t) (team : Team.t) (w : World).

Lemma initTeam_run props team w :
  initTeam isGuest props team w =
  mkOutcome (Normal team) (initTeam_world isGuest props w)
            (initTeam_calls isGuest props team).
Proof.
  unfold initTeam_calls, initTeam_world, currentUserIsGuest, initTeam, fetchGroups.
  branches; reflexivity.
Qed.
End InitTeam.

Section InitTeamClaims.
Variable isGuest : string -> bool.
Implicit Types (props : Props.t) (team : Team.t) (w : World).

(** C2.  Which of the two alternative group fetches [initTeam] issues
    is the specification's selection function of the four flags
    (licensed, LDAP groups, custom groups, group-constrained team):
    with the gate closed no group action of any kind is issued; with
    the gate open, a constrained team under LDAP groups gets the
    groups-of-the-team fetch and not the general list; every other
    case gets the general list and not the groups-of-the-team fetch;
    the two are never issued together. *)
Theorem C2_group_fetch_selection props team w :
  let tr := issued (initTeam isGuest props team w) in
  match groupFetchSelection (licensed props) (ldapGroupsEnabled props)
                            (Props.isCustomGroupsEnabled props)
                            (Team.group_constrained team) with
  | NoGroupFetch => List.filter is_group_fetch tr = []
  | TeamGroups =>
      List.filter is_team_groups_fetch tr = [GetAllGroupsAssociatedToTeam (Team.id team) true] /\
      List.filter is_general_groups_fetch tr = []
  | GeneralGroups =>
      List.filter is_general_groups_fetch tr = [GetGroups false 0 60] /\
      List.filter is_team_groups_fetch tr = []
  end /\
  (List.filter is_team_groups_fetch tr = [] \/ List.filter is_general_groups_fetch tr = []).
Proof.
  unfold initTeam, fetchGroups, groupFetchSelection, licensed, ldapGroupsEnabled.
  branches; cbn; auto.
Qed.

(** C5, as the code has it.  With the gate open, the user's own
    paginated groups are fetched exactly when there is a current user:
    one call, for that user's id, page 0 of 60 with member counts;
    without a current user, or with the gate closed, none. *)
Theorem C5_user_groups_fetched_for_present_user props team w :
  List.filter is_user_groups_fetch (issued (initTeam isGuest props team w)) =
  if groupsGate props then
    match Props.currentUser props with
    | Some currentUser =>
        [GetGroupsByUserIdPaginated (UserProfile.id currentUser) false 0 60 true]
    | None => []
    end
  else [].
Proof.
  unfold initTeam, fetchGroups, groupsGate, licensed, ldapGroupsEnabled.
  branches; reflexivity.
Qed.

(** C10.  [initTeam] closes the right-hand sidebar exactly when the
    team's id is not the previous-team id of the props, and then once. *)
Theorem C10_close_rhs_iff_team_changed props team w :
  let tr := issued (initTeam isGuest props team w) in
  (In EmitCloseRightHandSide tr <-> Props.previousTeamId props <> Some (Team.id team)) /\
  List.filter is_close_rhs tr =
    if bool_decide (Props.previousTeamId props = Some (Team.id team))
    then [] else [EmitCloseRightHandSide].
Proof.
  assert (Hf : List.filter is_close_rhs (issued (initTeam isGuest props team w)) =
               if bool_decide (Props.previousTeamId props = Some (Team.id team))
               then [] else [EmitCloseRightHandSide]).
  { unfold initTeam, fetchGroups.
    destruct (bool_decide (Props.previousTeamId props = Some (Team.id team))) eqn:Hp.
    - apply bool_decide_eq_true in Hp.
      rewrite (bool_decide_eq_true_2 (Some (Team.id team) = Props.previousTeamId props))
        by (symmetry; exact Hp).
      branches; reflexivity.
    - apply bool_decide_eq_false in Hp.
      rewrite (bool_decide_eq_false_2 (Some (Team.id team) = Props.previousTeamId props))
        by (intros E; apply Hp; symmetry; exact E).
      branches; reflexivity. }
  cbv zeta. split; [|exact Hf].
  assert (Hin : forall l, In EmitCloseRightHandSide l <->
                          In EmitCloseRightHandSide (List.filter is_close_rhs l)).
  { intros l. rewrite List.filter_In. simpl. intuition. }
  rewrite Hin, Hf. case_bool_decide; simpl; intuition congruence.
Qed.
End InitTeamClaims.

Lemma initTeam_calls_no_error_navigation isGuest props team :
  existsb is_error_navigation (initTeam_calls isGuest props team) = false.
Proof. unfold initTeam_calls, initTeam, fetchGroups. branches; reflexivity. Qed.

Lemma state_initTeam_world isGuest props w :
  state (initTeam_world isGuest props w) =
  if currentUserIsGuest isGuest props
  then option_map (fun s => State.merge s (State.mkPatch None (Some false) None)) (state w)
  else state w.
Proof. unfold initTeam_world. destruct (currentUserIsGuest isGuest props); reflexivity. Qed.

(** ** [joinTeam] *)

Section JoinTeam.
Variable RESERVED_TEAM_NAMES : list string.
Variable isGuest : string -> bool.
Variable getTeamByName : string -> option Team.t.
Variable addUserToTeam : string -> option string -> option ServerError.
Implicit Types (props : Props.t) (team : Team.t) (w : World).

(** The outcome of [joinTeam], by the result of the join. *)
Lemma joinTeam_run props firstLoad w :
  joinTeam RESERVED_TEAM_NAMES isGuest getTeamByName addUserToTeam props firstLoad w =
  match join RESERVED_TEAM_NAMES getTeamByName addUserToTeam props with
  | NotAttempted => mkOutcome (Normal tt) w []
  | Failed TeamNotFound =>
      mkOutcome (Normal tt) w
        [GetTeamByName (Props.match_params_team props); HistoryPush team_not_found_route]
  | Failed MembershipRejected =>
      mkOutcome (Normal tt) w
        (GetTeamByName (Props.match_params_team props) ::
         match getTeamByName (Props.match_params_team props) with
         | Some team =>
             [AddUserToTeam (Team.id team)
                            (option_map UserProfile.id (Props.currentUser props))]
         | None => []
         end ++ [HistoryPush team_not_found_route])
  | Joined team =>
      mkOutcome (Normal tt)
        (initTeam_world isGuest props
           (with_state
              (option_map (fun s => State.merge s (State.mkPatch (Some (Some team)) None None))
                          (state w)) w))
        (GetTeamByName (Props.match_params_team props) ::
         AddUserToTeam (Team.id team) (option_map UserProfile.id (Props.currentUser props)) ::
         (if firstLoad then [SetTeamIdJoinedOnLoad (Some (Team.id team))] else []) ++
         initTeam_calls isGuest props team)
  end.
Proof.
  unfold joinTeam, join.
  cbv beta delta [when]; repeat (cbn [andb orb negb]; branch);
    run; rewrite ?initTeam_run; run; rewrite ?app_nil_r; reflexivity.
Qed.

(** A join is not attempted exactly on the reserved names. *)
Lemma reserved_of_join props :
  bool_decide (Props.match_params_team props ∈ RESERVED_TEAM_NAMES) =
  match join RESERVED_TEAM_NAMES getTeamByName addUserToTeam props with
  | NotAttempted => true
  | _ => false
  end.
Proof. unfold join. repeat branch; reflexivity. Qed.

Lemma join_failure props e :
  Props.match_params_team props ∉ RESERVED_TEAM_NAMES ->
  JoinFailure getTeamByName addUserToTeam props e ->
  join RESERVED_TEAM_NAMES getTeamByName addUserToTeam props = Failed e.
Proof.
  intros Hres Hfail. unfold join.
  rewrite bool_decide_eq_false_2 by exact Hres.
  inversion Hfail as [Habs | team Hteam Hdel | team err Hteam Hdel Hadd]; subst.
  - rewrite Habs. reflexivity.
  - rewrite Hteam, bool_decide_eq_false_2 by exact Hdel. reflexivity.
  - rewrite Hteam, bool_decide_eq_true_2 by exact Hdel. rewrite Hadd. reflexivity.
Qed.

(** C3.  On a reserved name [joinTeam] returns at once: it issues no
    call at all (no team-by-name fetch, no add-user request, no
    navigation) and leaves the world as it was. *)
Theorem C3_reserved_slug_is_noop props firstLoad w :
  Props.match_params_team props ∈ RESERVED_TEAM_NAMES ->
  joinTeam RESERVED_TEAM_NAMES isGuest getTeamByName addUserToTeam props firstLoad w =
  mkOutcome (Normal tt) w [].
Proof.
  intros Hres. rewrite joinTeam_run.
  unfold join. rewrite bool_decide_eq_true_2 by exact Hres. reflexivity.
Qed.

(** C4.  On a name that is not reserved, a join that fails (the team
    is absent, or has [delete_at <> 0], or adding the user is answered
    by an error) ends in the one navigation to the team-not-found
    route, whatever the kind of failure, and initialises nothing: the
    state keeps its team and no call of [initTeam] is issued.  The
    two kinds differ only in whether the add-user request was made. *)
Theorem C4_join_failure_navigates_to_team_not_found props firstLoad w e :
  Props.match_params_team props ∉ RESERVED_TEAM_NAMES ->
  JoinFailure getTeamByName addUserToTeam props e ->
  let o := joinTeam RESERVED_TEAM_NAMES isGuest getTeamByName addUserToTeam
                    props firstLoad w in
  completion o = Normal tt /\
  world o = w /\
  List.filter is_history_push (issued o) = [HistoryPush team_not_found_route] /\
  List.filter is_init_call (issued o) = [] /\
  match e with
  | TeamNotFound =>
      issued o = [GetTeamByName (Props.match_params_team props);
                  HistoryPush team_not_found_route]
  | MembershipRejected =>
      exists team,
        getTeamByName (Props.match_params_team props) = Some team /\
        issued o = [GetTeamByName (Props.match_params_team props);
                    AddUserToTeam (Team.id team)
                      (option_map UserProfile.id (Props.currentUser props));
                    HistoryPush team_not_found_route]
  end.
Proof.
  intros Hres Hfail. cbv zeta.
  rewrite joinTeam_run, (join_failure props e Hres Hfail).
  destruct e; cbn [completion world issued].
  - repeat split; reflexivity.
  - inversion Hfail as [ | | team err Hteam Hdel Hadd]. rewrite Hteam.
    repeat split; try reflexivity. exists team. split; reflexivity.
Qed.
End JoinTeam.

(** ** The constructor and the life cycle *)

(** Run a method: calls of [initTeam] and [joinTeam] are replaced by
    their outcomes, every other test is decided. *)
Ltac continue :=
  run;
  repeat (first [rewrite initTeam_run | rewrite joinTeam_run
                | rewrite state_initTeam_world | branch]; run).

Ltac evaluate :=
  cbv beta delta [when];
  repeat (cbn [andb orb negb]; branch);
  continue.

Lemma lastTime_initTeam_world isGuest props w :
  lastTime (initTeam_world isGuest props w) = lastTime w.
Proof. unfold initTeam_world. destruct (currentUserIsGuest isGuest props); reflexivity. Qed.

Section LifeCycle.
Variable RESERVED_TEAM_NAMES : list string.
Variable isGuest : string -> bool.
Variable isIosSafari : bool.
Variable getTeamByName : string -> option Team.t.
Variable addUserToTeam : string -> option string -> option ServerError.
Implicit Types (props : Props.t) (team : Team.t) (w : World) (now : Z).

Lemma constructor_summary props now w :
  Props.mfaRequired props = false ->
  let o := constructor RESERVED_TEAM_NAMES isGuest getTeamByName addUserToTeam props now w in
  completion o = Normal tt /\
  state (world o) =
    Some {| State.team := resolution RESERVED_TEAM_NAMES getTeamByName addUserToTeam props;
            State.finishedFetchingChannels := false;
            State.prevTeam := Props.match_params_team props;
            State.teamsList := Props.teamsList props |} /\
  errorNavigation (issued o) =
    negb (is_Some_bool (resolution RESERVED_TEAM_NAMES getTeamByName addUserToTeam props)) &&
    negb (reservedUnknown RESERVED_TEAM_NAMES props).
Proof.
  intros Hmfa.
  unfold constructor, updateCurrentTeam, resolution, reservedUnknown, errorNavigation.
  rewrite Hmfa, reserved_of_join with (getTeamByName := getTeamByName)
                                     (addUserToTeam := addUserToTeam).
  destruct (findTeam (Props.teamsList props) (Props.match_params_team props)) eqn:Hfind.
  all: evaluate.
  all: cbn [is_Some_bool negb andb].
  all: rewrite ?state_initTeam_world.
  all: repeat (rewrite existsb_app || rewrite initTeam_calls_no_error_navigation
               || cbn [existsb is_error_navigation orb app]).
  all: try (destruct (currentUserIsGuest isGuest props)).
  all: repeat split; reflexivity.
Qed.

Lemma update_summary prevProps props w s :
  state w = Some s ->
  State.prevTeam s = Props.match_params_team prevProps ->
  Props.match_params_team props <> Props.match_params_team prevProps ->
  let o := update RESERVED_TEAM_NAMES isGuest getTeamByName addUserToTeam prevProps props w in
  completion o = Normal tt /\
  currentTeam (world o) = resolution RESERVED_TEAM_NAMES getTeamByName addUserToTeam props /\
  channelsReady (world o) =
    (if is_Some_bool (resolution RESERVED_TEAM_NAMES getTeamByName addUserToTeam props) &&
        currentUserIsGuest isGuest props
     then false else State.finishedFetchingChannels s) /\
  errorNavigation (issued o) =
    negb (is_Some_bool (resolution RESERVED_TEAM_NAMES getTeamByName addUserToTeam props)) &&
    negb (reservedUnknown RESERVED_TEAM_NAMES props).
Proof.
  intros Hs Hprev Hne.
  assert (H1 : bool_decide (State.prevTeam s = Props.match_params_team props) = false)
    by (apply bool_decide_eq_false_2; congruence).
  assert (H2 : bool_decide (Props.match_params_team props = Props.match_params_team prevProps)
               = false)
    by (apply bool_decide_eq_false_2; congruence).
  unfold update, applyDerivedStateFromProps, getDerivedStateFromProps, render,
    componentDidUpdate, resolution, reservedUnknown, errorNavigation, currentTeam,
    channelsReady.
  rewrite reserved_of_join with (getTeamByName := getTeamByName)
                                (addUserToTeam := addUserToTeam).
  destruct (findTeam (Props.teamsList props) (Props.match_params_team props)) eqn:Hfind;
    destruct (currentUserIsGuest isGuest props) eqn:Hguest.
  all: run; rewrite Hs; continue.
  all: repeat (rewrite existsb_app || rewrite initTeam_calls_no_error_navigation
               || cbn [existsb is_error_navigation orb app]).
  all: repeat split; reflexivity.
Qed.
(** The constructor never writes [lastTime]. *)
Lemma constructor_keeps_lastTime props now w :
  lastTime (world (constructor RESERVED_TEAM_NAMES isGuest getTeamByName addUserToTeam
                               props now w)) = lastTime w.
Proof.
  unfold constructor, updateCurrentTeam.
  destruct (Props.mfaRequired props);
    [|destruct (findTeam (Props.teamsList props) (Props.match_params_team props))].
  all: evaluate; rewrite ?lastTime_initTeam_world; reflexivity.
Qed.

(** C1, as the code has it.  A completed resolution, at construction
    or after a change of route, ends in exactly one of: a current team,
    or a navigation to the team-not-found route.  The exception is a
    reserved name that is not in the teams list: the join is skipped, so
    the resolution ends with no current team and no navigation. *)
Theorem C1_resolution_ends_in_team_xor_error_unless_reserved :
  (forall props now w,
      Props.mfaRequired props = false ->
      let o := constructor RESERVED_TEAM_NAMES isGuest getTeamByName addUserToTeam
                           props now w in
      if reservedUnknown RESERVED_TEAM_NAMES props
      then silently_ignored o else resolved_xor_error o) /\
  (forall prevProps props w s,
      state w = Some s ->
      State.prevTeam s = Props.match_params_team prevProps ->
      Props.match_params_team props <> Props.match_params_team prevProps ->
      let o := update RESERVED_TEAM_NAMES isGuest getTeamByName addUserToTeam
                      prevProps props w in
      if reservedUnknown RESERVED_TEAM_NAMES props
      then silently_ignored o else resolved_xor_error o).
Proof.
  assert (Hshape : forall A (o : Outcome A) props,
    currentTeam (world o) = resolution RESERVED_TEAM_NAMES getTeamByName addUserToTeam props ->
    errorNavigation (issued o) =
      negb (is_Some_bool (resolution RESERVED_TEAM_NAMES getTeamByName addUserToTeam props)) &&
      negb (reservedUnknown RESERVED_TEAM_NAMES props) ->
    if reservedUnknown RESERVED_TEAM_NAMES props
    then silently_ignored o else resolved_xor_error o).
  { intros A o props Hteam Hnav.
    unfold silently_ignored, resolved_xor_error. rewrite Hteam, Hnav.
    destruct (reservedUnknown RESERVED_TEAM_NAMES props) eqn:Hres.
    - unfold reservedUnknown in Hres. apply andb_true_iff in Hres as [Hres Hfind].
      unfold resolution.
      rewrite reserved_of_join with (getTeamByName := getTeamByName)
                                    (addUserToTeam := addUserToTeam) in Hres.
      destruct (findTeam (Props.teamsList props) (Props.match_params_team props));
        [discriminate|].
      destruct (join RESERVED_TEAM_NAMES getTeamByName addUserToTeam props);
        try discriminate.
      split; [reflexivity | apply andb_false_r].
    - destruct (resolution RESERVED_TEAM_NAMES getTeamByName addUserToTeam props);
        [left | right]; split; eauto. }
  split.
  - intros props now w Hmfa o.
    destruct (constructor_summary props now w Hmfa) as (_ & Hstate & Hnav).
    apply Hshape; [|exact Hnav].
    unfold currentTeam. fold o in Hstate. rewrite Hstate. reflexivity.
  - intros prevProps props w s Hs Hprev Hne o.
    destruct (update_summary prevProps props w s Hs Hprev Hne) as (_ & Hteam & _ & Hnav).
    apply Hshape; assumption.
Qed.

(** C6, as the code has it.  A change of route on a mounted controller
    re-resolves the new slug against the teams list of the new props
    (and joins when the list does not have it).  [channelsReady] is put
    back to false only for a guest, by [initTeam] itself, so before the
    channel fetch it issues can complete; for any other user it keeps
    the value it had for the team before. *)
Theorem C6_route_change_re_resolves_and_resets_for_guests prevProps props w s :
  state w = Some s ->
  State.prevTeam s = Props.match_params_team prevProps ->
  Props.match_params_team props <> Props.match_params_team prevProps ->
  let o := update RESERVED_TEAM_NAMES isGuest getTeamByName addUserToTeam
                  prevProps props w in
  completion o = Normal tt /\
  currentTeam (world o) =
    match findTeam (Props.teamsList props) (Props.match_params_team props) with
    | Some team => Some team
    | None =>
        match join RESERVED_TEAM_NAMES getTeamByName addUserToTeam props with
        | Joined team => Some team
        | _ => None
        end
    end /\
  channelsReady (world o) =
    (if is_Some_bool (currentTeam (world o)) && currentUserIsGuest isGuest props
     then false else State.finishedFetchingChannels s) /\
  (forall team w',
      channelsReady (world (initTeam isGuest props team w')) =
      if currentUserIsGuest isGuest props then false else channelsReady w').
Proof.
  intros Hs Hprev Hne o.
  destruct (update_summary prevProps props w s Hs Hprev Hne) as (Hc & Hteam & Hready & _).
  fold o in Hc, Hteam, Hready.
  repeat split; [exact Hc | exact Hteam | rewrite Hteam; exact Hready |].
  intros team w'. rewrite initTeam_run. cbn [world]. unfold channelsReady.
  rewrite state_initTeam_world.
  destruct (currentUserIsGuest isGuest props); [|reflexivity].
  destruct (state w'); reflexivity.
Qed.

(** C9.  With MFA required the constructor pushes the MFA-setup route
    and returns before it starts the wake-up timer and before it assigns
    [this.state].  React then calls [getDerivedStateFromProps] on the
    missing state, which raises, so the mount is never committed and
    [componentDidMount] does not run: no timer is started and no
    listener is registered. *)
Theorem C9_mfa_redirect_acquires_nothing props now w :
  Props.mfaRequired props = true ->
  let c := constructor RESERVED_TEAM_NAMES isGuest getTeamByName addUserToTeam
                       props now w in
  let o := mount RESERVED_TEAM_NAMES isGuest isIosSafari getTeamByName addUserToTeam
                 props now w in
  (issued c = [HistoryPush "/mfa/setup"] /\
   timers (world c) = timers w /\
   wakeUpInterval (world c) = wakeUpInterval w /\
   state (world c) = None) /\
  (issued o = [HistoryPush "/mfa/setup"] /\
   timers (world o) = timers w /\
   wakeUpInterval (world o) = wakeUpInterval w /\
   listeners (world o) = listeners w /\
   completion o =
     Throw "TypeError: Cannot read properties of null (reading 'prevTeam')").
Proof.
  intros Hmfa.
  unfold mount, applyDerivedStateFromProps, getDerivedStateFromProps, render,
    componentDidMount, constructor.
  rewrite Hmfa. run. repeat split; reflexivity.
Qed.

(** [componentDidMount] itself does not look at [mfaRequired]: whenever
    it runs, the three listeners are registered. *)
Lemma componentDidMount_registers_listeners props w :
  listeners (world (componentDidMount isIosSafari props w)) =
  listeners w ++ [("focus", HandleFocus); ("blur", HandleBlur);
                  ("keydown", OnShortcutKeyDown)].
Proof.
  unfold componentDidMount, fetchAllTeams. evaluate.
  all: rewrite <- !app_assoc; reflexivity.
Qed.

End LifeCycle.

(** ** The wake-up timer *)

Lemma wakeUpTick_run currentTime w :
  wakeUpTick currentTime w =
  mkOutcome (Normal tt) (with_lastTime currentTime w)
    (if currentTime >? lastTime w + WAKEUP_THRESHOLD
     then [ConsoleLog "computer woke up - fetching latest"; Reconnect false]
     else []).
Proof. unfold wakeUpTick. run. destruct (currentTime >? _); reflexivity. Qed.

(** C7, as the code has it.  [lastTime] is recorded once, when the
    module is loaded; constructing a controller, which is what starts
    the timer, leaves it as it is.  On every tick exactly one non-forced
    reconnect is issued if the time since the recorded [lastTime]
    exceeds 60 seconds and none otherwise, and [lastTime] becomes the
    time of the tick either way. *)
Theorem C7_lastTime_is_set_at_load_and_on_every_tick :
  (forall now, lastTime (module_init now) = now) /\
  (forall RESERVED_TEAM_NAMES isGuest getTeamByName addUserToTeam props now w,
      lastTime (world (constructor RESERVED_TEAM_NAMES isGuest getTeamByName addUserToTeam
                                   props now w)) = lastTime w) /\
  (forall currentTime w,
      let o := wakeUpTick currentTime w in
      List.filter is_reconnect (issued o) =
        (if currentTime - lastTime w >? 60000 then [Reconnect false] else []) /\
      lastTime (world o) = currentTime).
Proof.
  split; [reflexivity | split].
  - intros. apply constructor_keeps_lastTime.
  - intros currentTime w o. subst o. rewrite wakeUpTick_run. cbn [issued world].
    split; [|reflexivity].
    unfold WAKEUP_THRESHOLD.
    destruct (currentTime >? lastTime w + 60000) eqn:H1;
      destruct (currentTime - lastTime w >? 60000) eqn:H2; try reflexivity.
    + apply Z.gtb_lt in H1. rewrite Z.gtb_ltb in H2. apply Z.ltb_ge in H2. lia.
    + apply Z.gtb_lt in H2. rewrite Z.gtb_ltb in H1. apply Z.ltb_ge in H1. lia.
Qed.

(** ** Focus and blur *)

(** C8.  The three effects of a focus event are decided one by one:
    the window becomes active if a thread is selected or a channel is
    current (and is left as it was otherwise); the current channel, if
    any, is marked read; and the channels of the current team, if any,
    are fetched again exactly when more than 10 seconds have passed
    since the recorded blur.  So a focus 5 seconds after a blur fetches
    nothing and one 15 seconds after it fetches. *)
Theorem C8_focus_effects_are_independent props now w :
  let o := handleFocus props now w in
  let marks := match truthy (Props.currentChannelId props) with
               | Some currentChannelId => [MarkChannelAsReadOnFocus currentChannelId]
               | None => []
               end in
  let fetches := match truthy (Props.currentTeamId props) with
                 | Some currentTeamId =>
                     if now - blurTime w >? 10000
                     then [FetchMyChannelsAndMembersREST currentTeamId] else []
                 | None => []
                 end in
  issued o = marks ++ fetches /\
  isActive (world o) =
    (is_Some_bool (truthy (Props.selectedThreadId props)) ||
     is_Some_bool (truthy (Props.currentChannelId props)) || isActive w) /\
  (let blurred := world (handleBlur props now w) in
   List.filter is_channels_fetch (issued (handleFocus props (now + 5000) blurred)) = [] /\
   List.filter is_channels_fetch (issued (handleFocus props (now + 15000) blurred)) =
     match truthy (Props.currentTeamId props) with
     | Some currentTeamId => [FetchMyChannelsAndMembersREST currentTeamId]
     | None => []
     end).
Proof.
  cbv zeta. unfold UNREAD_CHECK_TIME_MILLISECONDS.
  assert (H5 : (now + 5000 - now >? 10000) = false) by (rewrite Z.gtb_ltb; apply Z.ltb_ge; lia).
  assert (H15 : (now + 15000 - now >? 10000) = true) by (rewrite Z.gtb_ltb; apply Z.ltb_lt; lia).
  split; [|split; [|split]].
  - unfold handleFocus, UNREAD_CHECK_TIME_MILLISECONDS. evaluate; reflexivity.
  - unfold handleFocus, UNREAD_CHECK_TIME_MILLISECONDS. evaluate; reflexivity.
  - unfold handleFocus, handleBlur, UNREAD_CHECK_TIME_MILLISECONDS. evaluate.
    all: rewrite ?H5; reflexivity.
  - unfold handleFocus, handleBlur, UNREAD_CHECK_TIME_MILLISECONDS. evaluate.
    all: rewrite ?H15; reflexivity.
Qed.

(** ** The claims on the concrete deployment *)

Lemma admin_console_is_reserved : "admin_console" ∈ reserved_names.
Proof. apply (bool_decide_unpack _). vm_compute. exact I. Qed.

Lemma omega_is_not_reserved : "omega" ∉ reserved_names.
Proof. apply (bool_decide_unpack _). vm_compute. exact I. Qed.

Lemma gamma_is_not_reserved : "gamma" ∉ reserved_names.
Proof. apply (bool_decide_unpack _). vm_compute. exact I. Qed.

(** C1 fails on a reserved route: the member opens [/admin_console],
    which names no team of the list; the constructor ends with no
    current team and without a navigation to the error route. *)
Lemma C1_reserved_route_ends_with_neither :
  ~ resolved_xor_error
      (constructor reserved_names guest_by_role server_teams add_accepted
                   (props_at "admin_console") 100000 (module_init 0)).
Proof.
  unfold resolved_xor_error. intros [[Hteam _] | [_ Hnav]].
  - vm_compute in Hteam. destruct Hteam as [team Hteam]. discriminate Hteam.
  - vm_compute in Hnav. discriminate Hnav.
Qed.

(** The amended C1 on the archived team [omega] at construction, and
    on a change of route from [alpha] to the joinable [gamma]. *)
Lemma C1_resolution_witness :
  resolved_xor_error
    (constructor reserved_names guest_by_role server_teams add_accepted
                 (props_at "omega") 100000 (module_init 0)) /\
  resolved_xor_error
    (update reserved_names guest_by_role server_teams add_accepted
            (props_at "alpha") (props_at "gamma") ready_on_alpha).
Proof.
  split.
  - exact (proj1 (C1_resolution_ends_in_team_xor_error_unless_reserved
                    reserved_names guest_by_role server_teams add_accepted)
                 (props_at "omega") 100000 (module_init 0) eq_refl).
  - refine (proj2 (C1_resolution_ends_in_team_xor_error_unless_reserved
                     reserved_names guest_by_role server_teams add_accepted)
                  (props_at "alpha") (props_at "gamma") ready_on_alpha _ _ _ _).
    + vm_compute. reflexivity.
    + vm_compute. reflexivity.
    + vm_compute. discriminate.
Defined.

(** C3 on the reserved route. *)
Lemma C3_reserved_slug_witness :
  "admin_console" ∈ reserved_names /\
  joinTeam reserved_names guest_by_role server_teams add_accepted
           (props_at "admin_console") true (module_init 0) =
  mkOutcome (Normal tt) (module_init 0) [].
Proof.
  split; [exact admin_console_is_reserved|].
  apply (C3_reserved_slug_is_noop reserved_names guest_by_role server_teams add_accepted
           (props_at "admin_console") true (module_init 0)).
  exact admin_console_is_reserved.
Defined.

(** C4 on the archived team [omega], and on [gamma] when the server
    refuses to add the user. *)
Lemma C4_join_failure_witness :
  let deleted := joinTeam reserved_names guest_by_role server_teams add_accepted
                          (props_at "omega") true (module_init 0) in
  let rejected := joinTeam reserved_names guest_by_role server_teams add_rejected
                           (props_at "gamma") true (module_init 0) in
  (JoinFailure server_teams add_accepted (props_at "omega") TeamNotFound /\
   world deleted = module_init 0 /\
   List.filter is_history_push (issued deleted) = [HistoryPush team_not_found_route]) /\
  (JoinFailure server_teams add_rejected (props_at "gamma") MembershipRejected /\
   world rejected = module_init 0 /\
   List.filter is_history_push (issued rejected) = [HistoryPush team_not_found_route]).
Proof.
  assert (Hdel : JoinFailure server_teams add_accepted (props_at "omega") TeamNotFound).
  { apply (team_deleted server_teams add_accepted (props_at "omega") omega).
    - vm_compute. reflexivity.
    - vm_compute. discriminate. }
  assert (Hrej : JoinFailure server_teams add_rejected (props_at "gamma") MembershipRejected).
  { apply (membership_rejected server_teams add_rejected (props_at "gamma") gamma
             (mkServerError "api.team.add_user.error")).
    - vm_compute. reflexivity.
    - vm_compute. reflexivity.
    - vm_compute. reflexivity. }
  split.
  - split; [exact Hdel|].
    destruct (C4_join_failure_navigates_to_team_not_found
                reserved_names guest_by_role server_teams add_accepted
                (props_at "omega") true (module_init 0) TeamNotFound
                omega_is_not_reserved Hdel) as (_ & Hworld & Hnav & _).
    split; [exact Hworld | exact Hnav].
  - split; [exact Hrej|].
    destruct (C4_join_failure_navigates_to_team_not_found
                reserved_names guest_by_role server_teams add_rejected
                (props_at "gamma") true (module_init 0) MembershipRejected
                gamma_is_not_reserved Hrej) as (_ & Hworld & Hnav & _).
    split; [exact Hworld | exact Hnav].
Defined.

(** C5 fails without a current user: the gate is open, and the user's
    groups are not fetched. *)
Lemma C5_no_user_no_user_groups_fetch :
  groupsGate (props_without_user "alpha") = true /\
  List.filter is_user_groups_fetch
    (issued (initTeam guest_by_role (props_without_user "alpha") alpha (module_init 0))) = [].
Proof. split; vm_compute; reflexivity. Qed.

(** C6 fails for a member: with the channels of [alpha] fetched, the
    route changes to [beta]; the controller resolves [beta] and
    [channelsReady] is still true, before any channel of [beta] has
    arrived. *)
Lemma C6_member_switch_keeps_channels_ready :
  let o := update reserved_names guest_by_role server_teams add_accepted
                  (props_at "alpha") (props_at "beta") ready_on_alpha in
  currentTeam ready_on_alpha = Some alpha /\
  currentTeam (world o) = Some beta /\
  channelsReady (world o) = true /\
  List.filter is_channels_fetch (issued o) = [FetchMyChannelsAndMembersREST "id-beta"].
Proof. repeat split; vm_compute; reflexivity. Qed.

(** The amended C6 for a guest on the same change of route. *)
Lemma C6_guest_switch_witness :
  channelsReady ready_on_alpha = true /\
  channelsReady
    (world (update reserved_names guest_by_role server_teams add_accepted
                   (props_guest_at "alpha") (props_guest_at "beta") ready_on_alpha)) = false.
Proof.
  split; [vm_compute; reflexivity|].
  assert (Hs : state ready_on_alpha =
               Some {| State.team := Some alpha;
                       State.finishedFetchingChannels := true;
                       State.prevTeam := "alpha";
                       State.teamsList := Some [alpha; beta] |})
    by (vm_compute; reflexivity).
  assert (Hne : Props.match_params_team (props_guest_at "beta") <>
                Props.match_params_team (props_guest_at "alpha"))
    by (vm_compute; discriminate).
  destruct (C6_route_change_re_resolves_and_resets_for_guests
              reserved_names guest_by_role server_teams add_accepted
              (props_guest_at "alpha") (props_guest_at "beta") ready_on_alpha _
              Hs eq_refl Hne) as (_ & _ & Hready & _).
  exact Hready.
Defined.

(** C7 fails at the start of the monitor: the module is loaded at time
    0 and the controller constructed at time 100000; [lastTime] is still
    0, and the first tick, 30 seconds after the start, reconnects. *)
Lemma C7_start_does_not_record_now :
  let started := world (constructor reserved_names guest_by_role server_teams add_accepted
                                    (props_at "alpha") 100000 (module_init 0)) in
  lastTime started = 0 /\
  lastTime started <> 100000 /\
  List.filter is_reconnect (issued (wakeUpTick 130000 started)) = [Reconnect false].
Proof.
  cbv zeta. repeat split; try (vm_compute; reflexivity).
  vm_compute. discriminate.
Qed.

(** C9 on the member's route while MFA is required. *)
Lemma C9_mfa_witness :
  let o := mount reserved_names guest_by_role false server_teams add_accepted
                 (props_mfa "alpha") 100000 (module_init 0) in
  issued o = [HistoryPush "/mfa/setup"] /\
  timers (world o) = [] /\
  listeners (world o) = [].
Proof.
  destruct (C9_mfa_redirect_acquires_nothing
              reserved_names guest_by_role false server_teams add_accepted
              (props_mfa "alpha") 100000 (module_init 0) eq_refl)
    as (_ & Hcalls & Htimers & _ & Hlisteners & _).
  repeat split; assumption.
Defined.

(** ** Further properties of the component *)

(** *** Resolution by name *)

(** [findTeam] gives the first team of the list that has the slug as
    its name: a team it gives is in the list under that name, it gives
    none exactly when no team of the list has the name (and always when
    there is no list), and teams before the first match do not matter. *)
Theorem findTeam_first_match :
  (forall slug, findTeam None slug = None) /\
  (forall l slug team,
      findTeam (Some l) slug = Some team -> In team l /\ Team.name team = slug) /\
  (forall l slug,
      findTeam (Some l) slug = None <-> forall team, In team l -> Team.name team <> slug) /\
  (forall before team after,
      (forall other, In other before -> Team.name other <> Team.name team) ->
      findTeam (Some (before ++ team :: after)) (Team.name team) = Some team).
Proof.
  split; [reflexivity|]. split; [|split].
  - intros l slug team H. cbn [findTeam] in H.
    apply List.find_some in H as [Hin Hname].
    split; [exact Hin | exact (bool_decide_eq_true_1 _ Hname)].
  - intros l slug. cbn [findTeam]. split.
    + intros H team Hin Hname.
      pose proof (List.find_none _ _ H team Hin) as Hf. cbn beta in Hf.
      rewrite bool_decide_eq_true_2 in Hf by exact Hname. discriminate.
    + intros H. induction l as [|t l IH]; [reflexivity|]. cbn [List.find].
      rewrite bool_decide_eq_false_2 by (apply H; left; reflexivity).
      apply IH. intros team Hin. apply H. right. exact Hin.
  - intros before team after H. cbn [findTeam].
    induction before as [|t before IH]; cbn [List.find app].
    + rewrite bool_decide_eq_true_2 by reflexivity. reflexivity.
    + rewrite bool_decide_eq_false_2 by (apply H; left; reflexivity).
      apply IH. intros other Hin. apply H. right. exact Hin.
Qed.

Lemma findTeam_first_match_witness :
  findTeam (Some [alpha; beta; gamma]) "beta" = Some beta /\
  In beta [alpha; beta] /\ Team.name beta = "beta".
Proof.
  split.
  - apply (proj2 (proj2 (proj2 findTeam_first_match)) [alpha] beta [gamma]).
    intros other [Heq | []]. subst other. vm_compute. discriminate.
  - apply (proj1 (proj2 findTeam_first_match) [alpha; beta] "beta" beta).
    vm_compute. reflexivity.
Defined.

(** *** The calls of [initTeam] *)

(** Whatever the props and the state, [initTeam] issues its five
    unconditional calls in one order: team unreads, select team,
    previous team id, channels and members of the team, statuses.  The
    only call before them is the closing of the right-hand side, and
    the only calls after them are the group fetches. *)
Theorem initTeam_call_order isGuest props team w :
  let core := [GetMyTeamUnreads (Props.collapsedThreads props);
               SelectTeam team;
               SetPreviousTeamId (Team.id team);
               FetchMyChannelsAndMembersREST (Team.id team);
               LoadStatusesForChannelAndSidebar] in
  let calls := issued (initTeam isGuest props team w) in
  calls = List.filter is_close_rhs calls ++ core ++ List.filter is_group_fetch calls.
Proof.
  unfold initTeam, fetchGroups. branches; reflexivity.
Qed.

(** The groups of the team's channels are fetched exactly when the
    license is valid and has LDAP groups; custom groups alone do not
    ask for them. *)
Theorem channel_groups_fetched_iff_ldap isGuest props team w :
  List.filter is_channel_groups_fetch (issued (initTeam isGuest props team w)) =
  if licensed props && ldapGroupsEnabled props
  then [GetAllGroupsAssociatedToChannelsInTeam (Team.id team) true]
  else [].
Proof.
  unfold initTeam, fetchGroups, licensed, ldapGroupsEnabled. branches; reflexivity.
Qed.

(** *** The wake-up timer over time *)

Lemma last_nonempty_default {A} (a : A) (l : list A) (d d' : A) :
  List.last (a :: l) d = List.last (a :: l) d'.
Proof.
  revert a. induction l as [|b l IH]; intros a; [reflexivity|].
  change (List.last (b :: l) d = List.last (b :: l) d'). apply IH.
Qed.

(** Over any sequence of ticks, one non-forced reconnect is issued for
    each tick that comes more than 60 seconds after the tick before it
    (for the first tick: after the recorded [lastTime]) and none for the
    others; at the end [lastTime] is the time of the last tick. *)
Theorem ticks_reconnect_once_per_late_tick times w :
  let o := ticks times w in
  completion o = Normal tt /\
  List.filter is_reconnect (issued o) =
    repeat (Reconnect false) (late_ticks (lastTime w) times) /\
  lastTime (world o) = List.last times (lastTime w).
Proof.
  revert w. induction times as [|currentTime rest IH]; intros w.
  - repeat split; reflexivity.
  - cbv zeta. cbn [ticks].
    destruct (IH (with_lastTime currentTime w)) as (Hc & Hr & Hl).
    rewrite completion_bind, issued_bind, world_bind, wakeUpTick_run.
    cbn [completion world issued]. cbn [lastTime with_lastTime] in Hr, Hl.
    split; [exact Hc | split].
    + rewrite List.filter_app, Hr. cbn [late_ticks].
      destruct (currentTime >? lastTime w + WAKEUP_THRESHOLD); reflexivity.
    + rewrite Hl. destruct rest as [|next rest]; [reflexivity|].
      change (List.last (next :: rest) currentTime = List.last (next :: rest) (lastTime w)).
      apply last_nonempty_default.
Qed.

(** *** What [initTeam] and [joinTeam] leave alone *)

Lemma initTeam_world_frame isGuest props w :
  initTeam_world isGuest props w = with_state (state (initTeam_world isGuest props w)) w.
Proof.
  unfold initTeam_world. destruct (currentUserIsGuest isGuest props); destruct w; reflexivity.
Qed.

Lemma initTeam_calls_no_join_call isGuest props team :
  List.filter is_team_lookup (initTeam_calls isGuest props team) = [] /\
  List.filter is_add_user (initTeam_calls isGuest props team) = [] /\
  List.filter is_joined_on_load_marker (initTeam_calls isGuest props team) = [] /\
  List.filter is_history_push (initTeam_calls isGuest props team) = [].
Proof.
  unfold initTeam_calls, initTeam, fetchGroups. branches; repeat split; reflexivity.
Qed.

Section MoreLifeCycle.
Variable RESERVED_TEAM_NAMES : list string.
Variable isGuest : string -> bool.
Variable isIosSafari : bool.
Variable getTeamByName : string -> option Team.t.
Variable addUserToTeam : string -> option string -> option ServerError.
Implicit Types (props : Props.t) (team : Team.t) (w : World) (now : Z).

(** *** Requests to the server *)

(** A resolution asks the server for the team by name exactly once
    when the slug is neither in the teams list nor reserved, and not at
    all otherwise; it asks to add the user at most once, and only for a
    team the server gave back with [delete_at = 0].  This holds at
    construction and after a change of route. *)
Theorem join_requested_once_iff_unknown_and_not_reserved :
  let lookups props :=
    if is_Some_bool (findTeam (Props.teamsList props) (Props.match_params_team props)) ||
       bool_decide (Props.match_params_team props ∈ RESERVED_TEAM_NAMES)
    then [] else [GetTeamByName (Props.match_params_team props)] in
  let additions props :=
    if is_Some_bool (findTeam (Props.teamsList props) (Props.match_params_team props)) ||
       bool_decide (Props.match_params_team props ∈ RESERVED_TEAM_NAMES)
    then []
    else match getTeamByName (Props.match_params_team props) with
         | Some team =>
             if bool_decide (Team.delete_at team = 0)
             then [AddUserToTeam (Team.id team)
                     (option_map UserProfile.id (Props.currentUser props))]
             else []
         | None => []
         end in
  (forall props now w,
      Props.mfaRequired props = false ->
      let o := constructor RESERVED_TEAM_NAMES isGuest getTeamByName addUserToTeam
                           props now w in
      List.filter is_team_lookup (issued o) = lookups props /\
      List.filter is_add_user (issued o) = additions props) /\
  (forall prevProps props w s,
      state w = Some s ->
      State.prevTeam s = Props.match_params_team prevProps ->
      Props.match_params_team props <> Props.match_params_team prevProps ->
      let o := update RESERVED_TEAM_NAMES isGuest getTeamByName addUserToTeam
                      prevProps props w in
      List.filter is_team_lookup (issued o) = lookups props /\
      List.filter is_add_user (issued o) = additions props).
Proof.
  cbv zeta. split.
  - intros props now w Hmfa.
    unfold constructor, updateCurrentTeam, joinTeam. rewrite Hmfa.
    destruct (findTeam (Props.teamsList props) (Props.match_params_team props)) eqn:Hfind;
      cbn [is_Some_bool orb].
    all: evaluate.
    all: rewrite ?app_nil_r;
      repeat (rewrite List.filter_app || cbn [List.filter is_team_lookup is_add_user app]);
      repeat match goal with
             | |- context [initTeam_calls ?g ?p ?t] =>
                 destruct (initTeam_calls_no_join_call g p t) as (-> & -> & _ & _)
             end.
    all: split; reflexivity.
  - intros prevProps props w s Hs Hprev Hne.
    assert (H1 : bool_decide (State.prevTeam s = Props.match_params_team props) = false)
      by (apply bool_decide_eq_false_2; congruence).
    assert (H2 : bool_decide (Props.match_params_team props =
                              Props.match_params_team prevProps) = false)
      by (apply bool_decide_eq_false_2; congruence).
    unfold update, applyDerivedStateFromProps, getDerivedStateFromProps, render,
      componentDidUpdate, joinTeam.
    destruct (findTeam (Props.teamsList props) (Props.match_params_team props)) eqn:Hfind;
      cbn [is_Some_bool orb].
    all: run; rewrite Hs; continue.
    all: rewrite ?app_nil_r;
      repeat (rewrite List.filter_app || cbn [List.filter is_team_lookup is_add_user app]);
      repeat match goal with
             | |- context [initTeam_calls ?g ?p ?t] =>
                 destruct (initTeam_calls_no_join_call g p t) as (-> & -> & _ & _)
             end.
    all: split; reflexivity.
Qed.
(** The joined-on-load marker is cleared once by every construction
    that gets past the MFA test, and written with a team id only by a
    join that succeeds during that construction.  A change of route
    never touches it, whether it joins or not, and neither does a
    construction that the MFA test stops. *)
Theorem joined_on_load_marker_only_at_construction :
  (forall props now w,
      Props.mfaRequired props = false ->
      List.filter is_joined_on_load_marker
        (issued (constructor RESERVED_TEAM_NAMES isGuest getTeamByName addUserToTeam
                             props now w)) =
      SetTeamIdJoinedOnLoad None ::
      match findTeam (Props.teamsList props) (Props.match_params_team props) with
      | Some _ => []
      | None =>
          match join RESERVED_TEAM_NAMES getTeamByName addUserToTeam props with
          | Joined team => [SetTeamIdJoinedOnLoad (Some (Team.id team))]
          | _ => []
          end
      end) /\
  (forall props now w,
      Props.mfaRequired props = true ->
      List.filter is_joined_on_load_marker
        (issued (constructor RESERVED_TEAM_NAMES isGuest getTeamByName addUserToTeam
                             props now w)) = []) /\
  (forall prevProps props w,
      List.filter is_joined_on_load_marker
        (issued (update RESERVED_TEAM_NAMES isGuest getTeamByName addUserToTeam
                        prevProps props w)) = []).
Proof.
  split; [|split].
  - intros props now w Hmfa.
    unfold constructor, updateCurrentTeam. rewrite Hmfa.
    destruct (findTeam (Props.teamsList props) (Props.match_params_team props)) eqn:Hfind.
    all: evaluate.
    all: rewrite ?app_nil_r;
      repeat (rewrite List.filter_app
              || cbn [List.filter is_joined_on_load_marker app]);
      repeat match goal with
             | |- context [initTeam_calls ?g ?p ?t] =>
                 destruct (initTeam_calls_no_join_call g p t) as (_ & _ & -> & _)
             end.
    all: reflexivity.
  - intros props now w Hmfa. unfold constructor. rewrite Hmfa. run. reflexivity.
  - intros prevProps props w.
    unfold update, applyDerivedStateFromProps, getDerivedStateFromProps, render,
      componentDidUpdate.
    run. destruct (state w) as [s|] eqn:Hs; [|reflexivity].
    continue.
    all: rewrite ?app_nil_r;
      repeat (rewrite List.filter_app
              || cbn [List.filter is_joined_on_load_marker app]);
      repeat match goal with
             | |- context [initTeam_calls ?g ?p ?t] =>
                 destruct (initTeam_calls_no_join_call g p t) as (_ & _ & -> & _)
             end.
    all: reflexivity.
Qed.

(** *** Updates that do not change the route *)

(** An update whose props carry the slug the state already has does
    nothing: the state keeps its team even when the teams list of the
    new props no longer has it (or now has a team that was missing), no
    call is issued and a join that failed is not tried again. *)
Theorem update_with_same_slug_is_noop prevProps props w s :
  state w = Some s ->
  State.prevTeam s = Props.match_params_team props ->
  Props.match_params_team props = Props.match_params_team prevProps ->
  update RESERVED_TEAM_NAMES isGuest getTeamByName addUserToTeam prevProps props w =
  mkOutcome (Normal tt) w [].
Proof.
  intros Hs Hprev Hsame.
  assert (H1 : bool_decide (State.prevTeam s = Props.match_params_team props) = true)
    by (apply bool_decide_eq_true_2; exact Hprev).
  assert (H2 : bool_decide (Props.match_params_team props =
                            Props.match_params_team prevProps) = true)
    by (apply bool_decide_eq_true_2; exact Hsame).
  unfold update, applyDerivedStateFromProps, getDerivedStateFromProps, render,
    componentDidUpdate.
  run. rewrite Hs. continue.
  all: destruct w, s; cbn in *; subst; reflexivity.
Qed.

(** *** A join that succeeds *)

(** When the slug is not reserved, the server has the team with
    [delete_at = 0] and accepts the user, [joinTeam] on a mounted
    component makes that team the current one and initialises it: the
    calls are the lookup, the add-user request (for the current user's
    id, if any), the marker on a first load, and then the calls of
    [initTeam] for that team; no navigation is issued. *)
Theorem joinTeam_success props firstLoad w s team :
  state w = Some s ->
  Props.match_params_team props ∉ RESERVED_TEAM_NAMES ->
  getTeamByName (Props.match_params_team props) = Some team ->
  Team.delete_at team = 0 ->
  addUserToTeam (Team.id team) (option_map UserProfile.id (Props.currentUser props)) = None ->
  let o := joinTeam RESERVED_TEAM_NAMES isGuest getTeamByName addUserToTeam
                    props firstLoad w in
  completion o = Normal tt /\
  currentTeam (world o) = Some team /\
  issued o =
    [GetTeamByName (Props.match_params_team props);
     AddUserToTeam (Team.id team) (option_map UserProfile.id (Props.currentUser props))] ++
    (if firstLoad then [SetTeamIdJoinedOnLoad (Some (Team.id team))] else []) ++
    issued (initTeam isGuest props team w) /\
  List.filter is_history_push (issued o) = [].
Proof.
  intros Hs Hres Hteam Hdel Hadd. cbv zeta.
  assert (Hjoin : join RESERVED_TEAM_NAMES getTeamByName addUserToTeam props = Joined team).
  { unfold join. rewrite bool_decide_eq_false_2 by exact Hres.
    rewrite Hteam, bool_decide_eq_true_2 by exact Hdel. rewrite Hadd. reflexivity. }
  rewrite joinTeam_run, Hjoin, initTeam_run. cbn [completion world issued].
  repeat split.
  - unfold currentTeam. rewrite state_initTeam_world. cbn [state with_state].
    rewrite Hs. destruct (currentUserIsGuest isGuest props); reflexivity.
  - cbn [List.filter is_history_push app]. rewrite List.filter_app.
    destruct (initTeam_calls_no_join_call isGuest props team) as (_ & _ & _ & ->).
    destruct firstLoad; reflexivity.
Qed.

(** *** What the view is shown *)

(** When the route changes to a slug that the teams list does not
    have, the derived state drops the team at once: the render that
    follows, before any join is asked for, shows the empty [div], issues
    no call and leaves [channelsReady] as it was. *)
Theorem route_change_to_unknown_team_blanks_the_view props w s :
  state w = Some s ->
  State.prevTeam s <> Props.match_params_team props ->
  findTeam (Props.teamsList props) (Props.match_params_team props) = None ->
  let o := bind (applyDerivedStateFromProps props) (fun _ => render props) w in
  completion o = Normal EmptyDiv /\
  issued o = [] /\
  currentTeam (world o) = None /\
  channelsReady (world o) = State.finishedFetchingChannels s.
Proof.
  intros Hs Hprev Hfind.
  assert (H1 : bool_decide (State.prevTeam s = Props.match_params_team props) = false)
    by (apply bool_decide_eq_false_2; exact Hprev).
  unfold applyDerivedStateFromProps, getDerivedStateFromProps, render, currentTeam,
    channelsReady.
  run. rewrite Hs. continue. repeat split; reflexivity.
Qed.

(** The completion callback of a channel fetch carries no team: run
    after a change of route it marks the channels ready for whatever
    team is current then.  So for a guest whose route changed to a team
    of the list, [channelsReady] is false after the update and true
    after the next completion, with the new team current throughout. *)
Theorem channel_fetch_completion_marks_current_team_ready prevProps props w s team :
  state w = Some s ->
  State.prevTeam s = Props.match_params_team prevProps ->
  Props.match_params_team props <> Props.match_params_team prevProps ->
  findTeam (Props.teamsList props) (Props.match_params_team props) = Some team ->
  currentUserIsGuest isGuest props = true ->
  let updated := world (update RESERVED_TEAM_NAMES isGuest getTeamByName addUserToTeam
                               prevProps props w) in
  let completed := fetchMyChannelsAndMembersREST_then updated in
  (currentTeam updated = Some team /\ channelsReady updated = false) /\
  (currentTeam (world completed) = Some team /\ channelsReady (world completed) = true /\
   issued completed = []).
Proof.
  intros Hs Hprev Hne Hfind Hguest. cbv zeta.
  destruct (update_summary RESERVED_TEAM_NAMES isGuest getTeamByName addUserToTeam
              prevProps props w s Hs Hprev Hne) as (_ & Hteam & Hready & _).
  unfold resolution in Hteam, Hready. rewrite Hfind in Hteam, Hready.
  rewrite Hguest in Hready. cbn [is_Some_bool andb] in Hready.
  split; [split; assumption|].
  set (updated := world (update RESERVED_TEAM_NAMES isGuest getTeamByName addUserToTeam
                                prevProps props w)) in *.
  unfold currentTeam, channelsReady in *. unfold fetchMyChannelsAndMembersREST_then.
  run. destruct (state updated) as [s'|]; [|discriminate].
  cbn [option_map State.merge State.team State.finishedFetchingChannels
       State.set_team State.set_finishedFetchingChannels].
  repeat split; exact Hteam.
Qed.

(** *** What the state remembers *)

(** After a construction that gets past the MFA test, and after every
    update of a mounted component, [prevTeam] is the slug of the props
    just handled.  The [teamsList] of the state is the list the
    constructor saw: an update never renews it, whatever the list of
    the new props. *)
Theorem state_tracks_the_slug_but_not_the_list :
  (forall props now w,
      Props.mfaRequired props = false ->
      exists s',
        state (world (constructor RESERVED_TEAM_NAMES isGuest getTeamByName addUserToTeam
                                  props now w)) = Some s' /\
        State.prevTeam s' = Props.match_params_team props /\
        State.teamsList s' = Props.teamsList props) /\
  (forall prevProps props w s,
      state w = Some s ->
      exists s',
        state (world (update RESERVED_TEAM_NAMES isGuest getTeamByName addUserToTeam
                             prevProps props w)) = Some s' /\
        State.prevTeam s' = Props.match_params_team props /\
        State.teamsList s' = State.teamsList s).
Proof.
  split.
  - intros props now w Hmfa.
    destruct (constructor_summary RESERVED_TEAM_NAMES isGuest getTeamByName addUserToTeam
                props now w Hmfa) as (_ & Hstate & _).
    eexists. split; [exact Hstate|]. split; reflexivity.
  - intros prevProps props w s Hs.
    unfold update, applyDerivedStateFromProps, getDerivedStateFromProps, render,
      componentDidUpdate.
    run. rewrite Hs. continue.
    all: try (destruct (currentUserIsGuest isGuest props)).
    all: eexists; split; [reflexivity|]; split; reflexivity.
Qed.

End MoreLifeCycle.

(** *** Timers and listeners *)

Lemma initTeam_world_fields isGuest props w :
  timers (initTeam_world isGuest props w) = timers w /\
  wakeUpInterval (initTeam_world isGuest props w) = wakeUpInterval w /\
  listeners (initTeam_world isGuest props w) = listeners w /\
  blurTime (initTeam_world isGuest props w) = blurTime w /\
  isActive (initTeam_world isGuest props w) = isActive w.
Proof. rewrite initTeam_world_frame. repeat split; reflexivity. Qed.

Ltac frame :=
  repeat match goal with
         | |- context [initTeam_world ?g ?p ?w] =>
             let H := fresh in
             pose proof (initTeam_world_fields g p w) as H;
             destruct H as (-> & -> & -> & -> & ->)
         end.

Section Resources.
Variable RESERVED_TEAM_NAMES : list string.
Variable isGuest : string -> bool.
Variable isIosSafari : bool.
Variable getTeamByName : string -> option Team.t.
Variable addUserToTeam : string -> option string -> option ServerError.
Implicit Types (props : Props.t) (team : Team.t) (w : World) (now : Z).

Lemma constructor_fields props now w :
  let o := constructor RESERVED_TEAM_NAMES isGuest getTeamByName addUserToTeam props now w in
  blurTime (world o) = now /\
  listeners (world o) = listeners w /\
  isActive (world o) = isActive w /\
  (if Props.mfaRequired props
   then timers (world o) = timers w /\ wakeUpInterval (world o) = wakeUpInterval w
   else timers (world o) =
          (nextHandle w, WAKEUP_CHECK_INTERVAL) ::
          match wakeUpInterval w with
          | Some h => List.filter (fun t => negb (Nat.eqb (fst t) h)) (timers w)
          | None => timers w
          end /\
        wakeUpInterval (world o) = Some (nextHandle w)).
Proof.
  unfold constructor, updateCurrentTeam.
  destruct (Props.mfaRequired props);
    [|destruct (findTeam (Props.teamsList props) (Props.match_params_team props))].
  all: evaluate; frame; run; repeat split; reflexivity.
Qed.
Lemma update_fields prevProps props w :
  let o := update RESERVED_TEAM_NAMES isGuest getTeamByName addUserToTeam prevProps props w in
  timers (world o) = timers w /\
  wakeUpInterval (world o) = wakeUpInterval w /\
  listeners (world o) = listeners w /\
  blurTime (world o) = blurTime w /\
  isActive (world o) = isActive w.
Proof.
  unfold update, applyDerivedStateFromProps, getDerivedStateFromProps, render,
    componentDidUpdate.
  run. destruct (state w) as [s|] eqn:Hs; [|repeat split; reflexivity].
  continue.
  all: frame; run; repeat split; reflexivity.
Qed.

(** What follows the constructor in a mount. *)
Lemma after_constructor_fields props w :
  let o := bind (applyDerivedStateFromProps props)
             (fun _ => bind (render props) (fun _ => componentDidMount isIosSafari props)) w in
  timers (world o) = timers w /\
  wakeUpInterval (world o) = wakeUpInterval w /\
  blurTime (world o) = blurTime w.
Proof.
  unfold applyDerivedStateFromProps, getDerivedStateFromProps, render, componentDidMount,
    fetchAllTeams.
  run. destruct (state w) as [s|] eqn:Hs; [|repeat split; reflexivity].
  continue.
  all: repeat split; reflexivity.
Qed.

Lemma mount_fields props now w :
  let c := constructor RESERVED_TEAM_NAMES isGuest getTeamByName addUserToTeam props now w in
  let o := mount RESERVED_TEAM_NAMES isGuest isIosSafari getTeamByName addUserToTeam
                 props now w in
  timers (world o) = timers (world c) /\
  wakeUpInterval (world o) = wakeUpInterval (world c) /\
  blurTime (world o) = blurTime (world c).
Proof.
  cbv zeta. unfold mount. rewrite world_bind.
  destruct (completion (constructor RESERVED_TEAM_NAMES isGuest getTeamByName addUserToTeam
                                    props now w)); [|repeat split; reflexivity].
  apply after_constructor_fields.
Qed.

Lemma one_timer_step e w :
  one_timer w ->
  one_timer (world (step RESERVED_TEAM_NAMES isGuest isIosSafari getTeamByName addUserToTeam
                         e w)).
Proof.
  intros Hone. unfold one_timer in *.
  destruct e as [props now | prevProps props | | currentTime | props now | props now | ];
    cbn [step].
  - destruct (mount_fields props now w) as (-> & -> & _).
    destruct (constructor_fields props now w) as (_ & _ & _ & Hc).
    destruct (Props.mfaRequired props).
    + destruct Hc as (-> & ->). exact Hone.
    + destruct Hc as (-> & ->). right. exists (nextHandle w). split; [reflexivity|].
      destruct Hone as [-> | (h & -> & ->)].
      * destruct (wakeUpInterval w); reflexivity.
      * cbn [List.filter fst]. rewrite Nat.eqb_refl. reflexivity.
  - destruct (update_fields prevProps props w) as (-> & -> & _). exact Hone.
  - left. unfold componentWillUnmount. evaluate.
    all: destruct Hone as [Hnil | (h & Hh & Ht)]; try congruence.
    all: try (rewrite Hnil; reflexivity).
    all: rewrite Ht; cbn [List.filter fst];
      replace h with n by congruence; rewrite Nat.eqb_refl; reflexivity.
  - rewrite wakeUpTick_run. exact Hone.
  - unfold handleFocus. evaluate; exact Hone.
  - unfold handleBlur. evaluate; exact Hone.
  - unfold fetchMyChannelsAndMembersREST_then. run. exact Hone.
Qed.

(** However the component is mounted, updated, unmounted and ticked
    after the module is loaded, at most one wake-up timer is live at any
    time, and it is the one whose handle [wakeUpInterval] holds. *)
Theorem at_most_one_wake_up_timer events now :
  one_timer (run_events RESERVED_TEAM_NAMES isGuest isIosSafari getTeamByName addUserToTeam
                        events (module_init now)).
Proof.
  assert (Hinit : one_timer (module_init now)) by (left; reflexivity).
  revert Hinit. generalize (module_init now).
  induction events as [|e rest IH]; intros w Hone; [exact Hone|].
  cbn [run_events]. apply IH. apply one_timer_step. exact Hone.
Qed.

End Resources.

Lemma released_listeners (registered : list (string * Handler)) :
  (forall l, In l registered -> own_listener l = false) ->
  List.filter
    (fun l => negb (bool_decide (fst l = "keydown") && handler_eqb (snd l) OnShortcutKeyDown))
    (List.filter
       (fun l => negb (bool_decide (fst l = "blur") && handler_eqb (snd l) HandleBlur))
       (List.filter
          (fun l => negb (bool_decide (fst l = "focus") && handler_eqb (snd l) HandleFocus))
          (registered ++ [("focus", HandleFocus); ("blur", HandleBlur);
                          ("keydown", OnShortcutKeyDown)]))) = registered.
Proof.
  induction registered as [|l registered IH]; intros Hfresh; [reflexivity|].
  assert (Hl : own_listener l = false) by (apply Hfresh; left; reflexivity).
  unfold own_listener in Hl.
  apply orb_false_iff in Hl as [Hl Hk]. apply orb_false_iff in Hl as [Hf Hb].
  cbn [app List.filter]. rewrite Hf. cbn [negb List.filter]. rewrite Hb.
  cbn [negb List.filter]. rewrite Hk. cbn [negb]. f_equal.
  apply IH. intros l' Hin. apply Hfresh. right. exact Hin.
Qed.

Section Release.
Variable RESERVED_TEAM_NAMES : list string.
Variable isGuest : string -> bool.
Variable isIosSafari : bool.
Variable getTeamByName : string -> option Team.t.
Variable addUserToTeam : string -> option string -> option ServerError.
Implicit Types (props : Props.t) (w : World) (now : Z).

(** A mount that gets past the MFA test, of an instance whose handlers
    the window does not have yet, completes with exactly one timer live
    and the three listeners added; the unmount that follows gives
    everything back: no timer is live, the listeners are those from
    before the mount, the window is marked inactive, the status updates
    that [componentDidMount] started are stopped, and the scroll guard
    is switched off exactly when [componentDidMount] switches it on (on
    iOS Safari). *)
Theorem unmount_releases_what_mount_acquired props now w :
  Props.mfaRequired props = false ->
  one_timer w ->
  (forall l, In l (listeners w) -> own_listener l = false) ->
  let m := mount RESERVED_TEAM_NAMES isGuest isIosSafari getTeamByName addUserToTeam
                 props now w in
  let u := componentWillUnmount isIosSafari (world m) in
  (completion m = Normal tt /\
   timers (world m) = [(nextHandle w, WAKEUP_CHECK_INTERVAL)] /\
   listeners (world m) =
     listeners w ++ [("focus", HandleFocus); ("blur", HandleBlur);
                     ("keydown", OnShortcutKeyDown)] /\
   isActive (world m) = true) /\
  (completion u = Normal tt /\
   timers (world u) = [] /\
   listeners (world u) = listeners w /\
   isActive (world u) = false /\
   issued u = StopPeriodicStatusUpdates :: (if isIosSafari then [INoBounceDisable] else [])) /\
  (forall w', issued (componentDidMount isIosSafari props w') =
              StartPeriodicStatusUpdates :: FetchAllMyTeamsChannelsAndChannelMembersREST ::
              (if isIosSafari then [INoBounceEnable] else [])).
Proof.
  intros Hmfa Hone Hfresh. cbv zeta.
  destruct (constructor_summary RESERVED_TEAM_NAMES isGuest getTeamByName addUserToTeam
              props now w Hmfa) as (Hcc & Hcs & _).
  destruct (constructor_fields RESERVED_TEAM_NAMES isGuest getTeamByName addUserToTeam
              props now w) as (_ & Hcl & Hca & Hct).
  rewrite Hmfa in Hct. destruct Hct as (Hct & Hcw).
  assert (Hslug : bool_decide (Props.match_params_team props = Props.match_params_team props)
                  = true) by (apply bool_decide_eq_true_2; reflexivity).
  assert (Htimers : timers (world (constructor RESERVED_TEAM_NAMES isGuest getTeamByName
                                               addUserToTeam props now w)) =
                    [(nextHandle w, WAKEUP_CHECK_INTERVAL)]).
  { rewrite Hct. f_equal.
    destruct Hone as [Hnil | (h & Hh & Ht)].
    - rewrite Hnil. destruct (wakeUpInterval w); reflexivity.
    - rewrite Hh, Ht. cbn [List.filter fst]. rewrite Nat.eqb_refl. reflexivity. }
  clear Hct.
  unfold mount, applyDerivedStateFromProps, getDerivedStateFromProps, render,
    componentDidMount, fetchAllTeams, componentWillUnmount.
  run.
  destruct (constructor RESERVED_TEAM_NAMES isGuest getTeamByName addUserToTeam props now w)
    as [cc cw cl].
  cbn [completion world issued] in *. subst cc.
  run. rewrite Hcs. continue.
  all: rewrite Hcl, Htimers; cbn [List.filter fst]; rewrite Nat.eqb_refl; cbn [negb].
  all: rewrite <- !app_assoc; cbn [app].
  all: split; [repeat split; reflexivity | split].
  all: try (intros w'; unfold componentDidMount, fetchAllTeams; run; reflexivity).
  all: split; [reflexivity | split; [reflexivity | split]].
  all: try (apply released_listeners; exact Hfresh).
  all: split; reflexivity.
Qed.


(** A focus before any blur measures from the construction: the
    constructor records its own time as the blur time, also when the
    MFA test stops it, so the first focus fetches the channels of the
    current team again exactly when it comes more than 10 seconds after
    the construction. *)
Theorem first_focus_measures_from_construction props focusProps now focusTime w :
  let constructed := world (constructor RESERVED_TEAM_NAMES isGuest getTeamByName
                                        addUserToTeam props now w) in
  List.filter is_channels_fetch (issued (handleFocus focusProps focusTime constructed)) =
  match truthy (Props.currentTeamId focusProps) with
  | Some currentTeamId =>
      if focusTime - now >? 10000
      then [FetchMyChannelsAndMembersREST currentTeamId] else []
  | None => []
  end.
Proof.
  cbv zeta.
  destruct (constructor_fields RESERVED_TEAM_NAMES isGuest getTeamByName addUserToTeam
              props now w) as (Hblur & _).
  remember (world (constructor RESERVED_TEAM_NAMES isGuest getTeamByName
                               addUserToTeam props now w)) as constructed eqn:Hc.
  clear Hc.
  rewrite <- Hblur. clear Hblur.
  unfold handleFocus, UNREAD_CHECK_TIME_MILLISECONDS.
  evaluate; reflexivity.
Qed.
End Release.

(** *** The keyboard shortcut *)

Lemma prefix_app (pattern text : string) :
  String.prefix pattern text = true <-> exists rest, text = (pattern ++ rest)%string.
Proof.
  revert text. induction pattern as [|c pattern IH]; intros text.
  - split; [intros _; exists text; reflexivity | intros _; destruct text; reflexivity].
  - destruct text as [|d text]; cbn [String.prefix].
    + split; [discriminate | intros [rest H]; discriminate H].
    + destruct (Ascii.ascii_dec c d) as [->|Hne].
      * rewrite IH. split; intros [rest H]; exists rest.
        -- rewrite H. reflexivity.
        -- change (String d text = String d (pattern ++ rest)%string) in H.
           injection H as H. exact H.
      * split; [discriminate|]. intros [rest H].
        change (String d text = String c (pattern ++ rest)%string) in H.
        injection H as H _. congruence.
Qed.

Lemma occurs_in_spec (pattern text : string) :
  occurs_in pattern text = true <->
  exists before after, text = (before ++ pattern ++ after)%string.
Proof.
  induction text as [|c text IH].
  - cbn [occurs_in]. rewrite orb_false_r, prefix_app. split.
    + intros [rest H]. exists EmptyString, rest. exact H.
    + intros (before & after & H). destruct before as [|b before]; [|discriminate H].
      exists after. exact H.
  - cbn [occurs_in]. rewrite orb_true_iff, prefix_app, IH. split.
    + intros [[rest H] | (before & after & H)].
      * exists EmptyString, rest. exact H.
      * exists (String c before), after. rewrite H. reflexivity.
    + intros (before & after & H). destruct before as [|b before].
      * left. exists after. exact H.
      * right. exists before, after.
        change (String c text = String b (before ++ pattern ++ after)%string) in H.
        injection H as _ H. exact H.
Qed.

(** The shortcut focuses at most one text box, and only when shift,
    command-or-control and L are down and the right-hand sidebar is in
    the document: the reply box if the class name of the sidebar
    contains the classes of the expanded sidebar, as one run of text,
    and the post box otherwise; a text box that is not in the document
    is not focused, and nothing else ever is. *)
Theorem shortcut_focuses_reply_or_post_box cmdOrCtrlPressed isKeyPressed_L e document target :
  onShortcutKeyDown cmdOrCtrlPressed isKeyPressed_L e document = Some target <->
  shiftKey e = true /\ cmdOrCtrlPressed e = true /\ isKeyPressed_L e = true /\
  exists className,
    document !! "sidebar-right" = Some className /\
    is_Some (document !! target) /\
    ((target = "reply_textbox" /\
      exists before after,
        className = (before ++ expanded_sidebar_classes ++ after)%string) \/
     (target = "post_textbox" /\
      ~ exists before after,
          className = (before ++ expanded_sidebar_classes ++ after)%string)).
Proof.
  unfold onShortcutKeyDown.
  destruct (shiftKey e), (cmdOrCtrlPressed e), (isKeyPressed_L e); cbn [andb];
    try (split; [discriminate | intros (? & ? & ? & _); discriminate]).
  destruct (document !! "sidebar-right") as [className|];
    [|split; [discriminate | intros (_ & _ & _ & c & H & _); discriminate]].
  destruct (occurs_in expanded_sidebar_classes className) eqn:Hocc.
  - apply occurs_in_spec in Hocc.
    destruct (document !! "reply_textbox") as [replyClass|] eqn:Hreply.
    + split.
      * intros [= <-]. repeat split; try reflexivity.
        exists className. split; [reflexivity|]. split; [rewrite Hreply; eexists; reflexivity|].
        left. split; [reflexivity | exact Hocc].
      * intros (_ & _ & _ & c & [= <-] & _ & [[-> _] | [_ Hno]]); [reflexivity|].
        exfalso. apply Hno. exact Hocc.
    + split; [discriminate|].
      intros (_ & _ & _ & c & [= <-] & [x Hx] & [[-> _] | [_ Hno]]).
      * rewrite Hreply in Hx. discriminate.
      * exfalso. apply Hno. exact Hocc.
  - assert (Hno : ~ exists before after,
               className = (before ++ expanded_sidebar_classes ++ after)%string).
    { intros H. apply occurs_in_spec in H. congruence. }
    destruct (document !! "post_textbox") as [postClass|] eqn:Hpost.
    + split.
      * intros [= <-]. repeat split; try reflexivity.
        exists className. split; [reflexivity|]. split; [rewrite Hpost; eexists; reflexivity|].
        right. split; [reflexivity | exact Hno].
      * intros (_ & _ & _ & c & [= <-] & _ & [[_ Hyes] | [-> _]]); [|reflexivity].
        exfalso. apply Hno. exact Hyes.
    + split; [discriminate|].
      intros (_ & _ & _ & c & [= <-] & [x Hx] & [[_ Hyes] | [-> _]]).
      * exfalso. apply Hno. exact Hyes.
      * rewrite Hpost in Hx. discriminate.
Qed.

(** *** The further properties on the concrete deployment *)

Lemma join_requested_witness :
  List.filter is_team_lookup
    (issued (constructor reserved_names guest_by_role server_teams add_accepted
                         (props_at "gamma") 100000 (module_init 0))) =
    [GetTeamByName "gamma"] /\
  List.filter is_team_lookup
    (issued (update reserved_names guest_by_role server_teams add_accepted
                    (props_at "alpha") (props_at "beta") ready_on_alpha)) = [].
Proof.
  split.
  - exact (proj1 (proj1 (join_requested_once_iff_unknown_and_not_reserved
                           reserved_names guest_by_role server_teams add_accepted)
                        (props_at "gamma") 100000 (module_init 0) eq_refl)).
  - refine (proj1 (proj2 (join_requested_once_iff_unknown_and_not_reserved
                            reserved_names guest_by_role server_teams add_accepted)
                         (props_at "alpha") (props_at "beta") ready_on_alpha _ _ _ _)).
    + vm_compute. reflexivity.
    + vm_compute. reflexivity.
    + vm_compute. discriminate.
Defined.

Lemma joined_on_load_marker_witness :
  List.filter is_joined_on_load_marker
    (issued (constructor reserved_names guest_by_role server_teams add_accepted
                         (props_at "gamma") 100000 (module_init 0))) =
    [SetTeamIdJoinedOnLoad None; SetTeamIdJoinedOnLoad (Some "id-gamma")] /\
  List.filter is_joined_on_load_marker
    (issued (constructor reserved_names guest_by_role server_teams add_accepted
                         (props_mfa "gamma") 100000 (module_init 0))) = [].
Proof.
  split.
  - exact (proj1 (joined_on_load_marker_only_at_construction
                    reserved_names guest_by_role server_teams add_accepted)
                 (props_at "gamma") 100000 (module_init 0) eq_refl).
  - exact (proj1 (proj2 (joined_on_load_marker_only_at_construction
                           reserved_names guest_by_role server_teams add_accepted))
                 (props_mfa "gamma") 100000 (module_init 0) eq_refl).
Defined.

Lemma update_with_same_slug_witness :
  update reserved_names guest_by_role server_teams add_accepted
         (props_at "alpha") (props_guest_at "alpha") ready_on_alpha =
  mkOutcome (Normal tt) ready_on_alpha [].
Proof.
  refine (update_with_same_slug_is_noop
            reserved_names guest_by_role server_teams add_accepted
            (props_at "alpha") (props_guest_at "alpha") ready_on_alpha _ _ _ _).
  - vm_compute. reflexivity.
  - vm_compute. reflexivity.
  - vm_compute. reflexivity.
Defined.

Lemma joinTeam_success_witness :
  currentTeam
    (world (joinTeam reserved_names guest_by_role server_teams add_accepted
                     (props_at "gamma") false ready_on_alpha)) = Some gamma.
Proof.
  refine (proj1 (proj2 (joinTeam_success
                          reserved_names guest_by_role server_teams add_accepted
                          (props_at "gamma") false ready_on_alpha _ gamma _ _ _ _ _))).
  - vm_compute. reflexivity.
  - exact gamma_is_not_reserved.
  - vm_compute. reflexivity.
  - vm_compute. reflexivity.
  - vm_compute. reflexivity.
Defined.

Lemma route_change_to_unknown_team_witness :
  completion (bind (applyDerivedStateFromProps (props_at "gamma"))
                   (fun _ => render (props_at "gamma")) ready_on_alpha) = Normal EmptyDiv.
Proof.
  refine (proj1 (route_change_to_unknown_team_blanks_the_view
                   (props_at "gamma") ready_on_alpha _ _ _ _)).
  - vm_compute. reflexivity.
  - vm_compute. discriminate.
  - vm_compute. reflexivity.
Defined.

Lemma channel_fetch_completion_witness :
  let updated := world (update reserved_names guest_by_role server_teams add_accepted
                               (props_guest_at "alpha") (props_guest_at "beta")
                               ready_on_alpha) in
  channelsReady updated = false /\
  channelsReady (world (fetchMyChannelsAndMembersREST_then updated)) = true.
Proof.
  assert (Hs : state ready_on_alpha =
               Some {| State.team := Some alpha;
                       State.finishedFetchingChannels := true;
                       State.prevTeam := "alpha";
                       State.teamsList := Some [alpha; beta] |})
    by (vm_compute; reflexivity).
  assert (Hne : Props.match_params_team (props_guest_at "beta") <>
                Props.match_params_team (props_guest_at "alpha"))
    by (vm_compute; discriminate).
  assert (Hfind : findTeam (Props.teamsList (props_guest_at "beta"))
                           (Props.match_params_team (props_guest_at "beta")) = Some beta)
    by (vm_compute; reflexivity).
  assert (Hguest : currentUserIsGuest guest_by_role (props_guest_at "beta") = true)
    by (vm_compute; reflexivity).
  destruct (channel_fetch_completion_marks_current_team_ready
              reserved_names guest_by_role server_teams add_accepted
              (props_guest_at "alpha") (props_guest_at "beta") ready_on_alpha _ beta
              Hs eq_refl Hne Hfind Hguest) as ((_ & Hbefore) & (_ & Hafter & _)).
  split; assumption.
Defined.

Lemma state_tracks_the_slug_witness :
  exists s',
    state (world (update reserved_names guest_by_role server_teams add_accepted
                         (props_at "alpha") (props_at "gamma") ready_on_alpha)) = Some s' /\
    State.prevTeam s' = "gamma" /\
    State.teamsList s' = Some [alpha; beta].
Proof.
  exact (proj2 (state_tracks_the_slug_but_not_the_list
                  reserved_names guest_by_role server_teams add_accepted)
               (props_at "alpha") (props_at "gamma") ready_on_alpha
               {| State.team := Some alpha;
                  State.finishedFetchingChannels := true;
                  State.prevTeam := "alpha";
                  State.teamsList := Some [alpha; beta] |}
               eq_refl).
Defined.

Lemma unmount_releases_witness :
  let m := mount reserved_names guest_by_role true server_teams add_accepted
                 (props_at "alpha") 100000 (module_init 0) in
  timers (world m) = [(1%nat, WAKEUP_CHECK_INTERVAL)] /\
  timers (world (componentWillUnmount true (world m))) = [].
Proof.
  assert (Hone : one_timer (module_init 0)) by (left; reflexivity).
  assert (Hfresh : forall l, In l (listeners (module_init 0)) -> own_listener l = false)
    by (intros l []).
  destruct (unmount_releases_what_mount_acquired
              reserved_names guest_by_role true server_teams add_accepted
              (props_at "alpha") 100000 (module_init 0) eq_refl Hone Hfresh)
    as ((_ & Hm & _) & (_ & Hu & _) & _).
  split; assumption.
Defined.
